(** * mflix movies API: a shallow embedding of [mflix/api/movies.py]

    The module is a set of Flask view functions.  Each one reads the
    request, calls the data layer ([mflix.db]) and shapes a JSON
    response.  The embedding keeps that structure:

    - Python values are the inductive [pyval]; a Python [dict] with
      string keys is a [gmap string pyval];
    - a view is a computation in the monad [M], which threads the state
      of the data layer and can raise a Python exception;
    - every call into the data layer is recorded in a trace, so that
      "the view calls [get_movies] with these arguments" is a statement
      about the trace. *)

From Stdlib Require Import ZArith String Ascii List Lia.
From stdpp Require Import base strings gmap fin_maps list pretty.

Local Open Scope Z_scope.
Local Open Scope string_scope.
#[local] Set Warnings "-register-all".

(** ** Python values *)

Inductive pyval : Type :=
| PyNone
| PyBool (b : bool)
| PyInt (n : Z)
| PyStr (s : string)
| PyList (l : list pyval)
| PyDict (d : gmap string pyval)
| PyDatetime (t : Z)
| PyObject (cls : string).

Abbreviation dict := (gmap string pyval).

(** [type(v).__name__], qualified by its module the way [str(type(v))]
    prints it.  [PyObject cls] stands for an instance of any other class
    (a [float], a BSON [ObjectId], ...). *)
Definition type_name (v : pyval) : string :=
  match v with
  | PyNone => "NoneType"
  | PyBool _ => "bool"
  | PyInt _ => "int"
  | PyStr _ => "str"
  | PyList _ => "list"
  | PyDict _ => "dict"
  | PyDatetime _ => "datetime.datetime"
  | PyObject cls => cls
  end.

(** [str(type(v))] *)
Definition str_type (v : pyval) : string :=
  "<class '" ++ type_name v ++ "'>".

(** [d.get(k)] and [d.get(k, dflt)] on a dict. *)
Definition dict_get (d : dict) (k : string) : pyval :=
  default PyNone (d !! k).

Definition dict_get_default (d : dict) (k : string) (dflt : pyval) : pyval :=
  default dflt (d !! k).

(** The dict display [{k1: v1, ..., **extra}]: the entries of [extra] are
    stored after the literal ones, so on a shared key [extra] wins. *)
Definition dict_unpack (literal extra : dict) : dict := extra ∪ literal.

(** A list of strings as a Python list of [str]. *)
Definition str_list (l : list string) : pyval := PyList (PyStr <$> l).

(** ** Exceptions *)

Inductive exn_class : Type :=
| Exception
| TypeError
| ValueError
| AttributeError
| ValidationError (field : string)
| OtherError (name : string).

#[global] Instance exn_class_eq_dec : EqDecision exn_class.
Proof. solve_decision. Defined.

(** An exception object: its class and what [str(e)] prints. *)
Record pyexn : Type := MkExn { exn_cls : exn_class; exn_str : string }.

(** [isinstance(e, c)].  Every modelled class derives from [Exception]
    and the others are unrelated to each other. *)
Definition exn_isinstance (e : pyexn) (c : exn_class) : bool :=
  match c with
  | Exception => true
  | _ => bool_decide (exn_cls e = c)
  end.

Inductive result (A : Type) : Type :=
| Return (a : A)
| Raise (e : pyexn).
Arguments Return {A} a.
Arguments Raise {A} e.

(** ** [int(s)] on a query-string value

    CPython's [int] applied to a [str], base 10.  A text is held as its
    UTF-8 bytes.  [int] first rewrites the text into ASCII: a character
    below 127 stays, a Unicode space becomes a blank, a Unicode decimal
    digit becomes the ASCII digit of its value, anything else a question
    mark.  Then surrounding white space (tab, line feed, vertical tab,
    form feed, carriage return, blank) is dropped, one sign is allowed,
    and decimal digits follow, where a single underscore may sit between
    two digits.  A literal of more than [max_str_digits] digits is
    refused.  Every refusal is a [ValueError].

    The tables of spaces and digits are those of Unicode 14.0, the
    version of CPython 3.11, and [max_str_digits] is that interpreter's
    default.  A byte string that is not UTF-8 stands for no text. *)

Definition code (c : ascii) : Z := Z.of_nat (nat_of_ascii c).

Definition is_space (c : ascii) : bool :=
  (((9 <=? code c) && (code c <=? 13)) || (code c =? 32))%Z.

Definition digit_value (c : ascii) : option Z :=
  if ((48 <=? code c) && (code c <=? 57))%Z then Some (code c - 48) else None.

Fixpoint lstrip (cs : list ascii) : list ascii :=
  match cs with
  | c :: cs' => if is_space c then lstrip cs' else cs
  | [] => []
  end.

Definition strip (cs : list ascii) : list ascii :=
  rev (lstrip (rev (lstrip cs))).

(** [after_digit] tells whether the previous character was a digit: an
    underscore is legal only there, and the literal must end on a digit. *)
Fixpoint parse_digits (acc : Z) (after_digit : bool) (cs : list ascii)
  : option Z :=
  match cs with
  | [] => if after_digit then Some acc else None
  | c :: cs' =>
      match digit_value c with
      | Some d => parse_digits (10 * acc + d) true cs'
      | None =>
          if Ascii.eqb c "_" && after_digit
          then parse_digits acc false cs'
          else None
      end
  end.

(** A continuation byte of UTF-8 and its six bits. *)
Definition continuation (c : ascii) : option Z :=
  if ((128 <=? code c) && (code c <=? 191))%Z then Some (code c - 128)
  else None.

(** The code points of a UTF-8 text ([None] on bytes that are not
    well-formed UTF-8: stray or missing continuation bytes, overlong
    forms, surrogates, values above U+10FFFF). *)
Fixpoint utf8_decode (bs : list ascii) : option (list Z) :=
  match bs with
  | [] => Some []
  | b1 :: rest =>
      if (code b1 <? 128)%Z then cons (code b1) <$> utf8_decode rest
      else if ((194 <=? code b1) && (code b1 <=? 223))%Z then
        match rest with
        | b2 :: rest' =>
            match continuation b2 with
            | Some x2 =>
                cons ((code b1 - 192) * 64 + x2) <$> utf8_decode rest'
            | None => None
            end
        | _ => None
        end
      else if ((224 <=? code b1) && (code b1 <=? 239))%Z then
        match rest with
        | b2 :: b3 :: rest' =>
            match continuation b2, continuation b3 with
            | Some x2, Some x3 =>
                let cp := (code b1 - 224) * 4096 + x2 * 64 + x3 in
                if ((2048 <=? cp)
                    && negb ((55296 <=? cp) && (cp <=? 57343)))%Z
                then cons cp <$> utf8_decode rest'
                else None
            | _, _ => None
            end
        | _ => None
        end
      else if ((240 <=? code b1) && (code b1 <=? 244))%Z then
        match rest with
        | b2 :: b3 :: b4 :: rest' =>
            match continuation b2, continuation b3, continuation b4 with
            | Some x2, Some x3, Some x4 =>
                let cp := (code b1 - 240) * 262144 + x2 * 4096
                          + x3 * 64 + x4 in
                if ((65536 <=? cp) && (cp <=? 1114111))%Z
                then cons cp <$> utf8_decode rest'
                else None
            | _, _, _ => None
            end
        | _ => None
        end
      else None
  end.

(** The white space of Unicode above ASCII: NEL, the no-break space, the
    Ogham space mark, the spaces U+2000 to U+200A, the line and the
    paragraph separator, the narrow no-break space, the medium
    mathematical space and the ideographic space. *)
Definition unicode_space (cp : Z) : bool :=
  ((cp =? 133) || (cp =? 160) || (cp =? 5760)
   || ((8192 <=? cp) && (cp <=? 8202))
   || (cp =? 8232) || (cp =? 8233) || (cp =? 8239) || (cp =? 8287)
   || (cp =? 12288))%Z.

(** Where the runs of ten decimal digits (values 0 to 9, in order) start:
    ASCII, Arabic-Indic, ... fullwidth, ... the mathematical digits, ...
    the segmented digits. *)
Definition decimal_digit_runs : list Z :=
  [48; 1632; 1776; 1984; 2406; 2534; 2662; 2790; 2918; 3046; 3174; 3302;
   3430; 3558; 3664; 3792; 3872; 4160; 4240; 6112; 6160; 6470; 6608; 6784;
   6800; 6992; 7088; 7232; 7248; 42528; 43216; 43264; 43472; 43504; 43600;
   44016; 65296; 66720; 68912; 69734; 69872; 69942; 70096; 70384; 70736;
   70864; 71248; 71360; 71472; 71904; 72016; 72784; 73040; 73120; 92768;
   92864; 93008; 120782; 120792; 120802; 120812; 120822; 123200; 123632;
   125264; 130032].

(** The value of a Unicode decimal digit. *)
Definition unicode_decimal (cp : Z) : option Z :=
  match List.find (fun start => (start <=? cp) && (cp <=? start + 9))%Z
                  decimal_digit_runs with
  | Some start => Some (cp - start)
  | None => None
  end.

(** One character of the rewriting into ASCII. *)
Definition decimal_and_space_to_ascii (cp : Z) : ascii :=
  if (cp <? 127)%Z then ascii_of_nat (Z.to_nat cp)
  else if unicode_space cp then " "%char
  else match unicode_decimal cp with
       | Some d => ascii_of_nat (Z.to_nat (48 + d))
       | None => "?"%char
       end.

(** The most digits [int] reads: [sys.int_info.default_max_str_digits]. *)
Definition max_str_digits : Z := 4300.

Definition count_digits (cs : list ascii) : Z :=
  Z.of_nat (length (List.filter (fun c => bool_decide (is_Some (digit_value c)))
                                cs)).

(** The digits after the sign. *)
Definition int_digits (ds : list ascii) : option Z :=
  if (max_str_digits <? count_digits ds)%Z then None
  else parse_digits 0 false ds.

Definition py_int (s : string) : option Z :=
  match utf8_decode (list_ascii_of_string s) with
  | None => None
  | Some cps =>
      match strip (decimal_and_space_to_ascii <$> cps) with
      | "+"%char :: ds => int_digits ds
      | "-"%char :: ds => Z.opp <$> int_digits ds
      | ds => int_digits ds
      end
  end.

(** ** The request and the response *)

(** [request.args] is a multi-dict: the query string's pairs in order.
    [json] is what [request.get_json()] returns ([PyNone] when the body
    is not JSON); [jwt_claims] is the decoded token, when there is one.
    A request on which [get_json] raises (a body announced as JSON that
    does not parse) has no [json] and is not a value of this type: the
    comment views call [get_json] before their guarded block, so on such
    a request they raise before anything modelled here happens. *)
Record request : Type := MkRequest {
  args : list (string * string);
  json : pyval;
  jwt_claims : option dict
}.

(** [request.args.get(k)]: the first value of [k], or [None]. *)
Fixpoint args_get (k : string) (a : list (string * string)) : option string :=
  match a with
  | [] => None
  | (k', v) :: a' => if String.eqb k' k then Some v else args_get k a'
  end.

(** [request.args.getlist(k)]: all the values of [k], in order. *)
Fixpoint args_getlist (k : string) (a : list (string * string)) : list string :=
  match a with
  | [] => []
  | (k', v) :: a' =>
      if String.eqb k' k then v :: args_getlist k a' else args_getlist k a'
  end.

Record response : Type := MkResponse { body : dict; status : Z }.

(** [jsonify(d)]: a JSON response, with Flask's default status 200. *)
Definition jsonify (d : dict) : response := {| body := d; status := 200 |}.

(** [return resp, code] *)
Definition with_status (r : response) (code : Z) : response :=
  {| body := body r; status := code |}.

(** A dict display [{k1: v1, ..., kn: vn}]: the entries are stored from
    left to right. *)
Definition dict_of (l : list (string * pyval)) : dict :=
  foldl (fun d kv => <[kv.1 := kv.2]> d) ∅ l.

(** [jsonify({'status': 'fail', 'error': str(e)})] *)
Definition fail_response (e : pyexn) : response :=
  jsonify (dict_of [("status", PyStr "fail"); ("error", PyStr (exn_str e))]).

(** ** The collaborators

    [mflix.db] and [mflix.api.user] are not part of this module: they are
    taken as parameters.  A data-layer function reads and may change the
    state of the database, and either returns or raises. *)

Record User : Type := MkUser { name : string; email : string }.

(** The write concern object; [document] is its private
    [_WriteConcern__document] attribute. *)
Record WriteConcern : Type := MkWriteConcern { document : dict }.

Record Services (DB : Type) : Type := MkServices {
  db_get_movie : pyval -> DB -> DB * result (option dict);
  db_get_movies : option dict -> Z -> Z -> DB -> DB * result (pyval * pyval);
  db_get_movies_by_country : list string -> DB -> DB * result pyval;
  db_get_movies_faceted : dict -> Z -> Z -> DB -> DB * result (dict * pyval);
  db_add_comment : pyval -> User -> pyval -> pyval -> DB -> DB * result unit;
  db_update_comment : pyval -> string -> pyval -> pyval -> DB -> DB * result unit;
  db_delete_comment : pyval -> string -> DB -> DB * result unit;
  db_get_configuration : DB -> DB * result (pyval * WriteConcern * dict);
  (** [User.from_claims] *)
  user_from_claims : dict -> User;
  (** the words [expect] puts before and after the name of the field in
      the text of its error *)
  expect_prefix : string;
  expect_suffix : string
}.
Arguments db_get_movie {DB} _ _ _.
Arguments db_get_movies {DB} _ _ _ _ _.
Arguments db_get_movies_by_country {DB} _ _ _.
Arguments db_get_movies_faceted {DB} _ _ _ _ _.
Arguments db_add_comment {DB} _ _ _ _ _ _.
Arguments db_update_comment {DB} _ _ _ _ _ _.
Arguments db_delete_comment {DB} _ _ _ _.
Arguments db_get_configuration {DB} _ _.
Arguments user_from_claims {DB} _ _.
Arguments expect_prefix {DB} _.
Arguments expect_suffix {DB} _.

(** Modelled from the spec: the text of the error that [expect] of
    [mflix/api/utils.py], which is not among the sources, raises for a
    field: "a descriptive error naming the missing/mistyped field".  The
    description is left open, the name of the field is part of the text. *)
Definition expect_message {DB} (S : Services DB) (field : string) : string :=
  expect_prefix S ++ field ++ expect_suffix S.

(** The calls a view makes into the data layer, with their arguments. *)
Inductive call : Type :=
| GetMovie (id : pyval)
| GetMovies (filters : option dict) (page per_page : Z)
| GetMoviesByCountry (countries : list string)
| GetMoviesFaceted (filters : dict) (page per_page : Z)
| AddComment (movie_id : pyval) (user : User) (comment : pyval) (date : pyval)
| UpdateComment (comment_id : pyval) (user_email : string)
    (text : pyval) (date : pyval)
| DeleteComment (comment_id : pyval) (user_email : string)
| GetConfiguration.

(** What a view runs in: the database, the server's clock and the
    calls made so far (oldest first). *)
Record world (DB : Type) : Type := MkWorld {
  db : DB;
  clock : Z;
  trace : list call
}.
Arguments MkWorld {DB} _ _ _.
Arguments db {DB} _.
Arguments clock {DB} _.
Arguments trace {DB} _.

(** ** The monad of views *)

Definition M (DB A : Type) : Type := world DB -> world DB * result A.

Definition ret {DB A} (a : A) : M DB A := fun w => (w, Return a).

Definition raise {DB A} (e : pyexn) : M DB A := fun w => (w, Raise e).

Definition bind {DB A B} (m : M DB A) (k : A -> M DB B) : M DB B :=
  fun w =>
    match m w with
    | (w', Return a) => k a w'
    | (w', Raise e) => (w', Raise e)
    end.

Notation "'do' x <- m ; k" := (bind m (fun x => k))
  (at level 10, x name, m at level 100, k at level 200,
   format "'[v' 'do'  x  <-  m ; '/' k ']'").
Notation "'do' ' pat <- m ; k" :=
  (bind m (fun x => match x with pat => k end))
  (at level 10, pat pattern, m at level 100, k at level 200,
   format "'[v' 'do'  ' pat  <-  m ; '/' k ']'").

(** [try: body except (c1, ..., cn) as e: handler]: an exception of
    another class goes through. *)
Definition try_except {DB A} (body : M DB A) (classes : list exn_class)
    (handler : pyexn -> M DB A) : M DB A :=
  fun w =>
    match body w with
    | (w', Return a) => (w', Return a)
    | (w', Raise e) =>
        if existsb (exn_isinstance e) classes then handler e w'
        else (w', Raise e)
    end.

(** Run a data-layer function and record the call. *)
Definition invoke {DB A} (c : call) (f : DB -> DB * result A) : M DB A :=
  fun w =>
    let (d, r) := f (db w) in
    (MkWorld d (clock w) (trace w ++ [c]), r).

(** [datetime.now()] *)
Definition datetime_now {DB} : M DB pyval :=
  fun w => (w, Return (PyDatetime (clock w))).

(** [int(s)] as a computation: [ValueError] when the text is no integer. *)
Definition int_ {DB} (s : string) : M DB Z :=
  match py_int s with
  | Some n => ret n
  | None => raise (MkExn ValueError "invalid literal for int() with base 10")
  end.

(** [o.get(k)] on an arbitrary value: only a dict has the method. *)
Definition py_get {DB} (o : pyval) (k : string) : M DB pyval :=
  match o with
  | PyDict d => ret (dict_get d k)
  | _ => raise (MkExn AttributeError
                  ("'" ++ type_name o ++ "' object has no attribute 'get'"))
  end.

(** What [get_movie] returns, as a value: a dict or [None]. *)
Definition movie_value (movie : option dict) : pyval :=
  match movie with
  | Some m => PyDict m
  | None => PyNone
  end.

(** ** The views of [mflix/api/movies.py] *)

Section Views.
Context {DB : Type} (S : Services DB).

(** *** The data layer, as the views call it *)

Definition get_movie (id : pyval) : M DB (option dict) :=
  invoke (GetMovie id) (db_get_movie S id).

Definition get_movies (filters : option dict) (page per_page : Z)
  : M DB (pyval * pyval) :=
  invoke (GetMovies filters page per_page)
         (db_get_movies S filters page per_page).

Definition get_movies_by_country (countries : list string) : M DB pyval :=
  invoke (GetMoviesByCountry countries) (db_get_movies_by_country S countries).

Definition get_movies_faceted (filters : dict) (page per_page : Z)
  : M DB (dict * pyval) :=
  invoke (GetMoviesFaceted filters page per_page)
         (db_get_movies_faceted S filters page per_page).

Definition add_comment (movie_id : pyval) (user : User) (comment date : pyval)
  : M DB unit :=
  invoke (AddComment movie_id user comment date)
         (db_add_comment S movie_id user comment date).

Definition update_comment (comment_id : pyval) (user_email : string)
    (text date : pyval) : M DB unit :=
  invoke (UpdateComment comment_id user_email text date)
         (db_update_comment S comment_id user_email text date).

Definition delete_comment (comment_id : pyval) (user_email : string)
  : M DB unit :=
  invoke (DeleteComment comment_id user_email)
         (db_delete_comment S comment_id user_email).

Definition get_configuration : M DB (pyval * WriteConcern * dict) :=
  invoke GetConfiguration (db_get_configuration S).

(** *** [mflix.api.utils.expect] *)

Definition is_str (v : pyval) : bool :=
  match v with PyStr _ => true | _ => false end.

(** Modelled from the spec: [expect] of [mflix/api/utils.py], which is
    not among the sources.  "A type/presence check that fails with a
    descriptive error naming the missing/mistyped field", the error
    being "a distinct error kind carrying the offending field name".
    The check returns its input when it is an instance of the expected
    type. *)
Definition expect (input : pyval) (expectedType : pyval -> bool)
    (field : string) : M DB pyval :=
  if expectedType input then ret input
  else raise (MkExn (ValidationError field) (expect_message S field)).

(** *** The page of a request (lines 44-54, and again 129-139)

    The message printed on the server's console when the value is
    bad is not part of the model. *)
Definition request_page (req : request) : M DB Z :=
  try_except
    (match args_get "page" (args req) with
     | None => ret 0
     | Some page => int_ page
     end)
    [TypeError; ValueError]
    (fun e => ret 0).

(** *** [GET /] *)
Definition api_get_movies : M DB response :=
  let MOVIES_PER_PAGE := 20 in
  do '(movies, total_num_entries) <- get_movies None 0 MOVIES_PER_PAGE;
  ret (jsonify (dict_of [
    ("movies", movies);
    ("page", PyInt 0);
    ("filters", PyDict ∅);
    ("entries_per_page", PyInt MOVIES_PER_PAGE);
    ("total_results", total_num_entries)])).

(** *** The filters of a search (lines 56-70): the pair
    [(filters, return_filters)] *)
Definition search_filters (req : request) : dict * dict :=
  let filters : dict := ∅ in
  let return_filters : dict := ∅ in
  let cast := args_getlist "cast" (args req) in
  let genre := args_getlist "genre" (args req) in
  let '(filters, return_filters) :=
    match cast with
    | _ :: _ => (<["cast" := str_list cast]> filters,
                 <["cast" := str_list cast]> return_filters)
    | [] => (filters, return_filters)
    end in
  let '(filters, return_filters) :=
    match genre with
    | _ :: _ => (<["genres" := str_list genre]> filters,
                 <["genre" := str_list genre]> return_filters)
    | [] => (filters, return_filters)
    end in
  let search := args_get "text" (args req) in
  match search with
  | Some (String c s) =>
      (<["text" := PyStr (String c s)]> filters,
       <["search" := PyStr (String c s)]> return_filters)
  | _ => (filters, return_filters)
  end.

(** *** [GET /search] *)
Definition api_search_movies (req : request) : M DB response :=
  let MOVIES_PER_PAGE := 20 in
  do page <- request_page req;
  let '(filters, return_filters) := search_filters req in
  do '(movies, total_num_entries) <-
       get_movies (Some filters) page MOVIES_PER_PAGE;
  ret (with_status (jsonify (dict_of [
    ("status", PyStr "success");
    ("movies", movies);
    ("page", PyInt page);
    ("filters", PyDict return_filters);
    ("entries_per_page", PyInt MOVIES_PER_PAGE);
    ("total_results", total_num_entries)])) 200).

(** *** [GET /id/<id>] *)
Definition api_get_movie_by_id (id : string) : M DB response :=
  do movie <- get_movie (PyStr id);
  match movie with
  | None => ret (with_status (jsonify (dict_of [("status", PyStr "fail")])) 400)
  | Some m =>
      if decide (m = ∅)
      then ret (with_status (jsonify (dict_of [("status", PyStr "fail")])) 400)
      else
        let updated_type := str_type (dict_get m "lastupdated") in
        ret (with_status (jsonify (dict_of [
          ("status", PyStr "success");
          ("movie", PyDict m);
          ("updated_type", PyStr updated_type)])) 200)
  end.

(** *** [GET /countries] *)
Definition api_get_movies_by_country (req : request) : M DB response :=
  try_except
    (let countries := args_getlist "countries" (args req) in
     do results <- get_movies_by_country countries;
     let response_object := dict_of [
       ("status", PyStr "success");
       ("titles", results)] in
     ret (with_status (jsonify response_object) 200))
    [Exception]
    (fun e =>
       let response_object := dict_of [
         ("status", PyStr "fail");
         ("error", PyStr (exn_str e))] in
       ret (with_status (jsonify response_object) 400)).

(** *** [GET /facet-search] *)
Definition api_search_movies_faceted (req : request) : M DB response :=
  let MOVIES_PER_PAGE := 20 in
  do page <- request_page req;
  let filters : dict := ∅ in
  let return_filters : dict := ∅ in
  let cast := args_getlist "cast" (args req) in
  let '(filters, return_filters) :=
    match cast with
    | _ :: _ => (<["cast" := str_list cast]> filters,
                 <["cast" := str_list cast]> return_filters)
    | [] => (filters, return_filters)
    end in
  if decide (filters = ∅) then api_search_movies req
  else
    try_except
      (do '(movies, total_num_entries) <-
            get_movies_faceted filters page MOVIES_PER_PAGE;
       ret (with_status (jsonify (dict_of [
         ("status", PyStr "success");
         ("movies", dict_get movies "movies");
         ("facets", PyDict (dict_of [
            ("runtime", dict_get movies "runtime");
            ("rating", dict_get movies "rating")]));
         ("page", PyInt page);
         ("filters", PyDict return_filters);
         ("entries_per_page", PyInt MOVIES_PER_PAGE);
         ("total_results", total_num_entries)])) 200))
      [Exception]
      (fun e => ret (fail_response e)).

(** *** Authentication ([flask_jwt_extended])

    [@jwt_required] lets the view run only when the request carries a
    valid token; [get_jwt_claims()] reads the claims of that token. *)
Definition jwt_required (view : request -> M DB response) (req : request)
  : M DB response :=
  match jwt_claims req with
  | Some _ => view req
  | None => raise (MkExn (OtherError "NoAuthorizationError")
                     "Missing Authorization Header")
  end.

Definition get_jwt_claims (req : request) : dict :=
  default ∅ (jwt_claims req).

(** *** [POST /comment] *)
Definition api_post_comment : request -> M DB response :=
  jwt_required (fun req =>
    let claims := get_jwt_claims req in
    let user := user_from_claims S claims in
    let post_data := json req in
    try_except
      (do movie_id <- (do v <- py_get post_data "movie_id";
                       expect v is_str "movie_id");
       do comment <- (do v <- py_get post_data "comment";
                      expect v is_str "comment");
       do now <- datetime_now;
       do _ <- add_comment movie_id user comment now;
       do movie <- get_movie movie_id;
       do updated_comments <- py_get (movie_value movie) "comments";
       ret (jsonify (dict_of [
         ("status", PyStr "success");
         ("comments", updated_comments)])))
      [Exception]
      (fun e => ret (fail_response e))).

(** *** [PUT /comment] *)
Definition api_update_comment : request -> M DB response :=
  jwt_required (fun req =>
    let claims := get_jwt_claims req in
    let user_email := email (user_from_claims S claims) in
    let post_data := json req in
    try_except
      (do comment_id <- (do v <- py_get post_data "comment_id";
                         expect v is_str "comment_id");
       do updated_comment <- (do v <- py_get post_data "updated_comment";
                              expect v is_str "updated_comment");
       do movie_id <- (do v <- py_get post_data "movie_id";
                       expect v is_str "movie_id");
       do now <- datetime_now;
       do _ <- update_comment comment_id user_email updated_comment now;
       do movie <- get_movie movie_id;
       do updated_comments <- py_get (movie_value movie) "comments";
       ret (jsonify (dict_of [
         ("status", PyStr "success");
         ("comments", updated_comments)])))
      [Exception]
      (fun e => ret (fail_response e))).

(** *** [DELETE /comment] *)
Definition api_delete_comment : request -> M DB response :=
  jwt_required (fun req =>
    let claims := get_jwt_claims req in
    let user_email := email (user_from_claims S claims) in
    let post_data := json req in
    try_except
      (do comment_id <- (do v <- py_get post_data "comment_id";
                         expect v is_str "comment_id");
       do movie_id <- (do v <- py_get post_data "movie_id";
                       expect v is_str "movie_id");
       do _ <- delete_comment comment_id user_email;
       do movie <- get_movie movie_id;
       do updated_comments <- py_get (movie_value movie) "comments";
       ret (jsonify (dict_of [
         ("status", PyStr "success");
         ("comments", updated_comments)])))
      [Exception]
      (fun e => ret (with_status (fail_response e) 200))).

(** *** [GET /config-options] *)
Definition get_conn_pool_size : M DB response :=
  try_except
    (do '(pool_size, w_concern, user_info) <- get_configuration;
     ret (jsonify (dict_unpack
       (dict_of [
          ("status", PyStr "success");
          ("pool_size", pool_size);
          ("wtimeout",
           dict_get_default (document w_concern) "wtimeout" (PyStr "0"))])
       user_info)))
    [Exception]
    (fun e => ret (fail_response e)).

End Views.

(** ** A data layer with canned answers

    Used to run the views on concrete requests.  The state of this data
    layer is the number of writes it has received. *)

Module Fixture.

Record canned : Type := MkCanned {
  movie : option dict;
  listing : result (pyval * pyval);
  faceted : result (dict * pyval);
  titles : result pyval;
  configuration : result (pyval * WriteConcern * dict)
}.

Definition str_of (v : pyval) : string :=
  match v with PyStr s => s | _ => "" end.

Definition services (c : canned) : Services nat := {|
  db_get_movie := fun _ n => (n, Return (movie c));
  db_get_movies := fun _ _ _ n => (n, listing c);
  db_get_movies_by_country := fun _ n => (n, titles c);
  db_get_movies_faceted := fun _ _ _ n => (n, faceted c);
  db_add_comment := fun _ _ _ _ n => (Datatypes.S n, Return tt);
  db_update_comment := fun _ _ _ _ n => (Datatypes.S n, Return tt);
  db_delete_comment := fun _ _ n => (Datatypes.S n, Return tt);
  db_get_configuration := fun n => (n, configuration c);
  user_from_claims := fun claims =>
    MkUser (str_of (dict_get claims "name")) (str_of (dict_get claims "email"));
  expect_prefix := "Invalid input for field ";
  expect_suffix := ""
|}.

Definition unavailable : pyexn :=
  MkExn (OtherError "ServerSelectionTimeoutError") "No servers found yet".

Definition jaws : dict :=
  dict_of [("title", PyStr "Jaws"); ("year", PyInt 1975)].

(** A healthy catalogue with one film, which has no [lastupdated]. *)
Definition healthy : canned := {|
  movie := Some jaws;
  listing := Return (PyList [PyDict jaws], PyInt 1);
  faceted := Return (dict_of [("movies", PyList [PyDict jaws])], PyInt 1);
  titles := Return (PyList [PyStr "Jaws"]);
  configuration :=
    Return (PyInt 50, MkWriteConcern (dict_of [("wtimeout", PyInt 2500)]),
            dict_of [("role", PyStr "readWrite")])
|}.

(** The database cannot be reached: every read raises. *)
Definition down : canned := {|
  movie := None;
  listing := Raise unavailable;
  faceted := Raise unavailable;
  titles := Raise unavailable;
  configuration := Raise unavailable
|}.

(** The user-info mapping carries a key named [status]. *)
Definition clashing : canned := {|
  movie := None;
  listing := Return (PyList [], PyInt 0);
  faceted := Return (∅, PyInt 0);
  titles := Return (PyList []);
  configuration :=
    Return (PyInt 50, MkWriteConcern ∅,
            dict_of [("status", PyStr "primary")])
|}.

Definition start : world nat := MkWorld 0%nat 1572566400 [].

End Fixture.

(** Does [msg] contain the text [field]? *)
Fixpoint mentions (field msg : string) : bool :=
  String.prefix field msg ||
  match msg with
  | EmptyString => false
  | String _ msg' => mentions field msg'
  end.

(** The page of a request, as the specification words it: the integer
    the [page] parameter spells, and 0 when there is none or when it
    spells no integer. *)
Definition effective_page (req : request) : Z :=
  match args_get "page" (args req) with
  | None => 0
  | Some s => default 0 (py_int s)
  end.

(** The page a call to the data layer asks for. *)
Definition page_asked (c : call) : option Z :=
  match c with
  | GetMovies _ page _ | GetMoviesFaceted _ page _ => Some page
  | _ => None
  end.

(** [str(n)] on a Python [int]: its decimal numeral. *)
Definition str_int (n : Z) : string := pretty n.

(** The characters of a numeral, digits and the minus sign, are ASCII and
    neither white space nor the plus sign. *)
Definition numeral_char (c : ascii) : Prop :=
  code c < 127 /\ is_space c = false /\ c <> "+"%char.

(** How a comment view ends once its write is done, by what the refetch
    [get_movie(movie_id)] gave: the film's [comments] on success, and a
    failure envelope when the film is [None] (it has no [get]) or the
    refetch raised. *)
Definition refetched (movie : result (option dict)) : response :=
  match movie with
  | Return (Some m) =>
      jsonify (dict_of [("status", PyStr "success");
                        ("comments", dict_get m "comments")])
  | Return None =>
      fail_response
        (MkExn AttributeError "'NoneType' object has no attribute 'get'")
  | Raise e => fail_response e
  end.

(** The first of [fields] that a JSON object lacks or holds with a value
    that is not a string. *)
Definition first_invalid (fields : list string) (post_data : dict)
  : option string :=
  List.find (fun field => negb (is_str (dict_get post_data field))) fields.

(** The calls that change the stored comments. *)
Definition is_write (c : call) : bool :=
  match c with
  | AddComment _ _ _ _ | UpdateComment _ _ _ _ | DeleteComment _ _ => true
  | _ => false
  end.

(** A view that makes one call to the data layer, a read. *)
Definition one_read {DB} (w : world DB) (out : world DB * result response)
  : Prop :=
  exists c, trace out.1 = (trace w ++ [c])%list /\ is_write c = false.

(** Two requests that spell the same [page], [cast], [genre] and [text]
    parameters (they may differ in every other parameter, in the order of
    parameters of different names, in body and in token). *)
Definition same_search_parameters (req1 req2 : request) : Prop :=
  args_get "page" (args req1) = args_get "page" (args req2)
  /\ args_getlist "cast" (args req1) = args_getlist "cast" (args req2)
  /\ args_getlist "genre" (args req1) = args_getlist "genre" (args req2)
  /\ args_get "text" (args req1) = args_get "text" (args req2).

(** ** A scripted data layer

    Every function answers what the script says, whatever its
    arguments; the state counts the calls served. *)

Module Scripted.

Record script : Type := MkScript {
  on_get_movie : result (option dict);
  on_get_movies : result (pyval * pyval);
  on_add_comment : result unit;
  on_update_comment : result unit;
  on_delete_comment : result unit
}.

Definition services (s : script) : Services nat := {|
  db_get_movie := fun _ n => (Datatypes.S n, on_get_movie s);
  db_get_movies := fun _ _ _ n => (Datatypes.S n, on_get_movies s);
  db_get_movies_by_country := fun _ n => (Datatypes.S n, Return (PyList []));
  db_get_movies_faceted := fun _ _ _ n => (Datatypes.S n, Return (∅, PyInt 0));
  db_add_comment := fun _ _ _ _ n => (Datatypes.S n, on_add_comment s);
  db_update_comment := fun _ _ _ _ n => (Datatypes.S n, on_update_comment s);
  db_delete_comment := fun _ _ n => (Datatypes.S n, on_delete_comment s);
  db_get_configuration := fun n =>
    (Datatypes.S n, Return (PyInt 50, MkWriteConcern ∅, ∅));
  user_from_claims := fun claims =>
    MkUser (Fixture.str_of (dict_get claims "name"))
           (Fixture.str_of (dict_get claims "email"));
  expect_prefix := "Invalid input for field ";
  expect_suffix := ""
|}.

Definition timeout : pyexn :=
  MkExn (OtherError "ServerSelectionTimeoutError") "No servers found yet".

Definition quint : dict := dict_of [("email", PyStr "quint@amity.example")].

Definition orca : dict :=
  dict_of [("title", PyStr "Jaws");
           ("comments", PyList [PyStr "You're gonna need a bigger boat"])].

(** Two records of the same film: [lastupdated] is a date in one and a
    text in the other. *)
Definition stamped : dict :=
  dict_of [("title", PyStr "Jaws"); ("lastupdated", PyDatetime 1441091956)].

Definition unconverted : dict :=
  dict_of [("title", PyStr "Jaws");
           ("lastupdated", PyStr "2015-09-01 07:19:16.000000000")].

Definition finds (m : dict) : script := {|
  on_get_movie := Return (Some m);
  on_get_movies := Return (PyList [PyDict m], PyInt 1);
  on_add_comment := Return tt;
  on_update_comment := Return tt;
  on_delete_comment := Return tt
|}.

(** Everything works and the film is there. *)
Definition fine : script := {|
  on_get_movie := Return (Some orca);
  on_get_movies := Return (PyList [PyDict orca], PyInt 1);
  on_add_comment := Return tt;
  on_update_comment := Return tt;
  on_delete_comment := Return tt
|}.

(** Writes are accepted, but the film cannot be found afterwards. *)
Definition vanished : script := {|
  on_get_movie := Return None;
  on_get_movies := Return (PyList [], PyInt 0);
  on_add_comment := Return tt;
  on_update_comment := Return tt;
  on_delete_comment := Return tt
|}.

(** Every call raises. *)
Definition broken : script := {|
  on_get_movie := Raise timeout;
  on_get_movies := Raise timeout;
  on_add_comment := Raise timeout;
  on_update_comment := Raise timeout;
  on_delete_comment := Raise timeout
|}.

Definition start : world nat := MkWorld 0%nat 1572566400 [].

(** An authenticated request with a JSON object as its body. *)
Definition signed (post_data : dict) : request :=
  MkRequest [] (PyDict post_data) (Some quint).

End Scripted.

(** * Properties *)

(** ** Parsing integers *)

Example py_int_examples :
  py_int "12" = Some 12 /\ py_int " -7 " = Some (-7)
  /\ py_int "+1_000" = Some 1000 /\ py_int "007" = Some 7
  /\ py_int "" = None /\ py_int "1_" = None /\ py_int "_1" = None
  /\ py_int "1__0" = None /\ py_int "+ 1" = None /\ py_int "abc" = None
  /\ py_int "1.0" = None /\ py_int "--1" = None.
Proof. repeat split; reflexivity. Qed.

(** Digits and spaces beyond ASCII are read as CPython reads them:
    fullwidth digits, an Arabic-Indic digit after a minus sign, a
    no-break space and an ideographic space around the number,
    Devanagari digits with an underscore; a superscript digit is no
    digit. *)
Example py_int_unicode_examples :
  py_int "１２" = Some 12 /\ py_int "-٣" = Some (-3)
  /\ py_int " 5　" = Some 5 /\ py_int "४_२" = Some 42
  /\ py_int "²" = None /\ py_int "1é" = None.
Proof. repeat apply conj; vm_compute; reflexivity. Qed.

Example effective_page_unicode_examples :
  effective_page (MkRequest [("page", "１２")] PyNone None) = 12
  /\ effective_page (MkRequest [("page", "-٣")] PyNone None) = -3.
Proof. repeat apply conj; vm_compute; reflexivity. Qed.

(** ** How the views run *)

Section Runs.
Context {DB : Type} (S : Services DB).

(** Reading the page never fails and touches nothing. *)
Lemma request_page_run (req : request) (w : world DB) :
  request_page req w = (w, Return (effective_page req)).
Proof.
  unfold request_page, effective_page, try_except, int_.
  destruct (args_get "page" (args req)) as [s|]; [|reflexivity].
  destruct (py_int s) as [n|]; reflexivity.
Qed.

(** The search view is one call to [get_movies] and a success envelope
    around what it returns. *)
Lemma api_search_movies_run (req : request) (w : world DB) :
  api_search_movies S req w =
    let page := effective_page req in
    let fs := search_filters req in
    let (d, r) := db_get_movies S (Some fs.1) page 20 (db w) in
    (MkWorld d (clock w) (trace w ++ [GetMovies (Some fs.1) page 20]),
     match r with
     | Return (movies, total) =>
         Return {| body := dict_of [
                     ("status", PyStr "success");
                     ("movies", movies);
                     ("page", PyInt page);
                     ("filters", PyDict fs.2);
                     ("entries_per_page", PyInt 20);
                     ("total_results", total)];
                   status := 200 |}
     | Raise e => Raise e
     end).
Proof.
  unfold api_search_movies, bind. rewrite request_page_run.
  destruct (search_filters req) as [filters return_filters]. simpl.
  unfold get_movies, invoke.
  destruct (db_get_movies S (Some filters) (effective_page req) 20 (db w))
    as [d [[movies total]|e]]; reflexivity.
Qed.

(** With no [cast] the faceted view hands the request to the search
    view. *)
Lemma faceted_without_cast_run (req : request) (w : world DB) :
  args_getlist "cast" (args req) = [] ->
  api_search_movies_faceted S req w = api_search_movies S req w.
Proof.
  intros Hcast. unfold api_search_movies_faceted, bind at 1.
  rewrite request_page_run, Hcast. reflexivity.
Qed.

(** With some [cast] it is one call to [get_movies_faceted]; an
    exception of that call becomes a failure envelope. *)
Lemma faceted_with_cast_run (req : request) (w : world DB) :
  args_getlist "cast" (args req) <> [] ->
  api_search_movies_faceted S req w =
    let page := effective_page req in
    let cast := str_list (args_getlist "cast" (args req)) in
    let c := GetMoviesFaceted {["cast" := cast]} page 20 in
    let (d, r) := db_get_movies_faceted S {["cast" := cast]} page 20 (db w) in
    (MkWorld d (clock w) (trace w ++ [c]),
     match r with
     | Return (movies, total) =>
         Return {| body := dict_of [
                     ("status", PyStr "success");
                     ("movies", dict_get movies "movies");
                     ("facets", PyDict (dict_of [
                        ("runtime", dict_get movies "runtime");
                        ("rating", dict_get movies "rating")]));
                     ("page", PyInt page);
                     ("filters", PyDict {["cast" := cast]});
                     ("entries_per_page", PyInt 20);
                     ("total_results", total)];
                   status := 200 |}
     | Raise e => Return (fail_response e)
     end).
Proof.
  intros Hcast. unfold api_search_movies_faceted, bind at 1.
  rewrite request_page_run.
  destruct (args_getlist "cast" (args req)) as [|a cast]; [done|].
  destruct (decide (<["cast" := str_list (a :: cast)]> (∅ : dict) = ∅))
    as [Hempty|_].
  { exfalso. apply (f_equal (fun m : dict => m !! "cast")) in Hempty.
    rewrite lookup_insert_eq, lookup_empty in Hempty. discriminate. }
  unfold try_except, bind, get_movies_faceted, invoke. simpl.
  change (<["cast" := str_list (a :: cast)]> (∅ : dict))
    with ({["cast" := str_list (a :: cast)]} : dict).
  destruct (db_get_movies_faceted S {["cast" := str_list (a :: cast)]}
              (effective_page req) 20 (db w)) as [d [[movies total]|e]];
    reflexivity.
Qed.

End Runs.

(** Looking a key up in a dict display. *)
Ltac dict_lookup :=
  unfold fail_response, jsonify, with_status, dict_of;
  cbn [foldl fst snd body status];
  repeat first
    [ rewrite lookup_insert_eq
    | rewrite lookup_insert_ne by discriminate
    | rewrite lookup_empty ];
  try reflexivity.

(** ** Search: the call to the data layer *)

(** C2, as stated, fails: a search request without [cast], [genre] or
    [text] calls the paged query with the empty mapping as its filters
    argument, not with [None]. *)
Lemma search_passes_empty_mapping_not_None :
  let req := MkRequest [] PyNone None in
  let out := api_search_movies (Fixture.services Fixture.healthy) req
               Fixture.start in
  args_getlist "cast" (args req) = []
  /\ args_getlist "genre" (args req) = []
  /\ args_get "text" (args req) = None
  /\ trace out.1 = [GetMovies (Some ∅) 0 20]
  /\ trace out.1 <> [GetMovies None 0 20].
Proof. cbv zeta. repeat split; try reflexivity. vm_compute. discriminate. Qed.

(** C2, amended: every search request makes exactly one call to the data
    layer, the paged query with arguments (filters, page, 20), where
    filters is the mapping the view has built, never [None]; without
    [cast], [genre] and [text] parameters it is the empty mapping. *)
Theorem search_calls_paged_query {DB} (S : Services DB) (req : request)
    (w : world DB) :
  trace (api_search_movies S req w).1 =
    (trace w ++
       [GetMovies (Some (search_filters req).1) (effective_page req) 20])%list
  /\ (args_getlist "cast" (args req) = [] ->
      args_getlist "genre" (args req) = [] ->
      args_get "text" (args req) = None ->
      (search_filters req).1 = ∅).
Proof.
  split.
  - rewrite api_search_movies_run. cbv zeta.
    destruct (db_get_movies S _ _ _ _) as [d r]. reflexivity.
  - intros Hc Hg Ht. unfold search_filters. rewrite Hc, Hg, Ht. reflexivity.
Qed.

Lemma search_calls_paged_query_witness :
  let req := MkRequest [("page", "3")] PyNone None in
  let S := Fixture.services Fixture.healthy in
  trace (api_search_movies S req Fixture.start).1 = [GetMovies (Some ∅) 3 20].
Proof.
  cbv zeta.
  pose proof (search_calls_paged_query (Fixture.services Fixture.healthy)
                (MkRequest [("page", "3")] PyNone None) Fixture.start)
    as [Htrace Hempty].
  rewrite Htrace, Hempty; reflexivity.
Defined.

(** ** The page *)

Lemma effective_page_negative (req : request) :
  effective_page req < 0 <->
  exists s n, args_get "page" (args req) = Some s /\ py_int s = Some n /\ n < 0.
Proof.
  unfold effective_page.
  destruct (args_get "page" (args req)) as [s|].
  - destruct (py_int s) as [n|] eqn:Hint; simpl; split.
    + intros Hn. exists s, n. auto.
    + intros (s' & n' & Hs & Hn & Hlt). congruence.
    + lia.
    + intros (s' & n' & Hs & Hn & Hlt). congruence.
  - split; [lia|]. intros (s' & n' & Hs & _). discriminate.
Qed.

(** C3, as stated, fails: [page=-1] spells an integer, so the search view
    asks the data layer for page -1 and echoes -1; the faceted view does
    the same when there is a [cast]. *)
Lemma negative_page_is_used_and_echoed :
  let S := Fixture.services Fixture.healthy in
  let search := api_search_movies S
                  (MkRequest [("page", "-1")] PyNone None) Fixture.start in
  let facet := api_search_movies_faceted S
                 (MkRequest [("page", "-1"); ("cast", "Roy Scheider")]
                    PyNone None) Fixture.start in
  trace search.1 = [GetMovies (Some ∅) (-1) 20]
  /\ (exists r, search.2 = Return r /\ body r !! "page" = Some (PyInt (-1)))
  /\ trace facet.1 =
       [GetMoviesFaceted {["cast" := str_list ["Roy Scheider"]]} (-1) 20]
  /\ (exists r, facet.2 = Return r /\ body r !! "page" = Some (PyInt (-1)))
  /\ ~ 0 <= -1.
Proof.
  cbv zeta. split; [reflexivity|]. split.
  { eexists. split; [reflexivity|]. vm_compute. reflexivity. }
  split; [reflexivity|]. split.
  { eexists. split; [reflexivity|]. vm_compute. reflexivity. }
  lia.
Qed.

(** C3, amended: for every request to the search and faceted-search
    endpoints, the page used for the one query to the data layer and
    echoed in the success response is an integer: the one the [page]
    parameter spells, and 0 when the parameter is absent or spells no
    integer.  It is negative exactly when the parameter spells a negative
    integer. *)
Theorem page_is_the_parsed_integer {DB} (S : Services DB) (req : request)
    (w : world DB) :
  (exists c, trace (api_search_movies S req w).1 = (trace w ++ [c])%list
             /\ page_asked c = Some (effective_page req))
  /\ match (api_search_movies S req w).2 with
     | Return r => body r !! "page" = Some (PyInt (effective_page req))
     | Raise _ => True
     end
  /\ (exists c, trace (api_search_movies_faceted S req w).1
                = (trace w ++ [c])%list
                /\ page_asked c = Some (effective_page req))
  /\ match (api_search_movies_faceted S req w).2 with
     | Return r => body r !! "page" = Some (PyInt (effective_page req))
                   \/ exists e, r = fail_response e
     | Raise _ => True
     end
  /\ (effective_page req < 0 <->
      exists s n, args_get "page" (args req) = Some s
                  /\ py_int s = Some n /\ n < 0).
Proof.
  assert (Hsearch :
    (exists c, trace (api_search_movies S req w).1 = (trace w ++ [c])%list
               /\ page_asked c = Some (effective_page req))
    /\ match (api_search_movies S req w).2 with
       | Return r => body r !! "page" = Some (PyInt (effective_page req))
       | Raise _ => True
       end).
  { rewrite api_search_movies_run. cbv zeta.
    destruct (db_get_movies S _ _ _ _) as [d [[movies total]|e]]; simpl;
      (split; [eexists; split; reflexivity|]); [dict_lookup|exact I]. }
  destruct Hsearch as [Hcall Hecho].
  split; [exact Hcall|]. split; [exact Hecho|].
  cut ((exists c, trace (api_search_movies_faceted S req w).1
                   = (trace w ++ [c])%list
                   /\ page_asked c = Some (effective_page req))
       /\ match (api_search_movies_faceted S req w).2 with
          | Return r => body r !! "page" = Some (PyInt (effective_page req))
                        \/ exists e, r = fail_response e
          | Raise _ => True
          end).
  { intros [Hc He]. auto using effective_page_negative. }
  destruct (args_getlist "cast" (args req)) as [|a cast] eqn:Hcast.
  - rewrite (faceted_without_cast_run S req w Hcast).
    split; [exact Hcall|].
    destruct ((api_search_movies S req w).2); [left; exact Hecho|exact I].
  - assert (Hne : args_getlist "cast" (args req) <> []) by (rewrite Hcast; done).
    rewrite (faceted_with_cast_run S req w Hne). cbv zeta.
    destruct (db_get_movies_faceted S _ _ _ _) as [d [[movies total]|e]];
      simpl; (split; [eexists; split; reflexivity|]).
    + left. dict_lookup.
    + right. eauto.
Qed.

(** C4: when the [page] parameter is absent or spells no integer, the
    effective page is 0 and reading it raises nothing: the search view
    goes on to query page 0, and its outcome is a success response with
    status 200 and page 0, unless the data layer itself raises. *)
Theorem bad_page_defaults_to_zero {DB} (S : Services DB) (req : request)
    (w : world DB) :
  args_get "page" (args req) = None
  \/ (exists s, args_get "page" (args req) = Some s /\ py_int s = None) ->
  effective_page req = 0
  /\ request_page req w = (w, Return 0)
  /\ trace (api_search_movies S req w).1 =
       (trace w ++ [GetMovies (Some (search_filters req).1) 0 20])%list
  /\ match (api_search_movies S req w).2 with
     | Return r => status r = 200
                   /\ body r !! "status" = Some (PyStr "success")
                   /\ body r !! "page" = Some (PyInt 0)
     | Raise e => exists d, db_get_movies S (Some (search_filters req).1) 0 20
                              (db w) = (d, Raise e)
     end.
Proof.
  intros Hbad.
  assert (Hzero : effective_page req = 0).
  { unfold effective_page. destruct Hbad as [->|(s & -> & ->)]; reflexivity. }
  split; [exact Hzero|].
  split; [rewrite request_page_run, Hzero; reflexivity|].
  rewrite api_search_movies_run, Hzero. cbv zeta.
  destruct (db_get_movies S _ _ _ _) as [d [[movies total]|e]]; simpl.
  - split; [reflexivity|]. repeat split; dict_lookup.
  - split; [reflexivity|]. eauto.
Qed.

Lemma bad_page_defaults_to_zero_witness :
  let req := MkRequest [("page", "two"); ("genre", "Thriller")] PyNone None in
  let S := Fixture.services Fixture.healthy in
  effective_page req = 0
  /\ trace (api_search_movies S req Fixture.start).1 =
       [GetMovies (Some {["genres" := str_list ["Thriller"]]}) 0 20].
Proof.
  cbv zeta.
  destruct (bad_page_defaults_to_zero (Fixture.services Fixture.healthy)
              (MkRequest [("page", "two"); ("genre", "Thriller")] PyNone None)
              Fixture.start) as (Hzero & _ & Htrace & _).
  { right. exists "two". split; reflexivity. }
  split; [exact Hzero|]. rewrite Htrace. reflexivity.
Defined.

(** ** Search: the two filter mappings *)

(** C5: the mapping the search view passes to the query has key [cast]
    iff the cast list is non-empty, key [genres] iff the genre list is
    non-empty, and key [text] iff the text parameter is a non-empty
    string; the mapping returned to the client under [filters] holds the
    same values under [cast], [genre] and [search]. *)
Theorem search_filters_follow_parameters {DB} (S : Services DB)
    (req : request) (w : world DB) :
  let cast := args_getlist "cast" (args req) in
  let genre := args_getlist "genre" (args req) in
  let text := args_get "text" (args req) in
  let filters := (search_filters req).1 in
  let return_filters := (search_filters req).2 in
  trace (api_search_movies S req w).1 =
    (trace w ++ [GetMovies (Some filters) (effective_page req) 20])%list
  /\ match (api_search_movies S req w).2 with
     | Return r => body r !! "filters" = Some (PyDict return_filters)
     | Raise _ => True
     end
  /\ (is_Some (filters !! "cast") <-> cast <> [])
  /\ (is_Some (filters !! "genres") <-> genre <> [])
  /\ (is_Some (filters !! "text") <-> exists s, text = Some s /\ s <> "")
  /\ filters !! "cast" = match cast with [] => None | _ => Some (str_list cast) end
  /\ filters !! "genres" =
       match genre with [] => None | _ => Some (str_list genre) end
  /\ filters !! "text" =
       match text with Some (String c s) => Some (PyStr (String c s)) | _ => None end
  /\ return_filters !! "cast" = filters !! "cast"
  /\ return_filters !! "genre" = filters !! "genres"
  /\ return_filters !! "search" = filters !! "text".
Proof.
  cbv zeta. split.
  { rewrite api_search_movies_run. cbv zeta.
    destruct (db_get_movies S _ _ _ _) as [d r]. reflexivity. }
  split.
  { rewrite api_search_movies_run. cbv zeta.
    destruct (db_get_movies S _ _ _ _) as [d [[movies total]|e]]; simpl;
      [dict_lookup|exact I]. }
  unfold search_filters.
  destruct (args_getlist "cast" (args req)) as [|a cast];
    destruct (args_getlist "genre" (args req)) as [|g genre];
    destruct (args_get "text" (args req)) as [[|c s]|];
    cbn [fst snd];
    repeat first
      [ rewrite lookup_insert_eq
      | rewrite lookup_insert_ne by discriminate
      | rewrite lookup_empty ];
    repeat split;
    try (intros [? ?]; discriminate); try discriminate; try done;
    try (intros (? & ? & ?); congruence);
    try (intros _; eexists; split; [reflexivity|discriminate]).
Qed.

(** ** Faceted search without a cast *)

(** C6: when the cast parameter is absent or empty, the faceted-search
    view ends exactly as the search view does on the same request: same
    response (body and status code), same call to the data layer, and the
    same exception if the data layer raises. *)
Theorem faceted_without_cast_is_search {DB} (S : Services DB)
    (req : request) (w : world DB) :
  args_getlist "cast" (args req) = [] ->
  api_search_movies_faceted S req w = api_search_movies S req w.
Proof. apply faceted_without_cast_run. Qed.

Lemma faceted_without_cast_is_search_witness :
  let req := MkRequest [("genre", "Thriller"); ("page", "1")] PyNone None in
  let S := Fixture.services Fixture.healthy in
  api_search_movies_faceted S req Fixture.start =
    api_search_movies S req Fixture.start.
Proof.
  cbv zeta.
  apply (faceted_without_cast_is_search (Fixture.services Fixture.healthy)
           (MkRequest [("genre", "Thriller"); ("page", "1")] PyNone None)
           Fixture.start).
  reflexivity.
Defined.

(** ** Movie by id *)

(** C7: when the lookup returns [None] or an empty record, the view
    answers [{status: fail}] with status 400 and raises nothing;
    when it returns a non-empty record, the view answers
    [{status: success, movie, updated_type}] with status 200, where
    [updated_type] is the name of the runtime type of the record's
    [lastupdated] entry, as [str(type(...))] renders it:
    [<class 'str'>] for a text, [<class 'datetime.datetime'>] for a date,
    [<class 'NoneType'>] when there is none, and so on. *)
Theorem movie_by_id_response {DB} (S : Services DB) (id : string)
    (w : world DB) (d : DB) (movie : option dict) :
  db_get_movie S (PyStr id) (db w) = (d, Return movie) ->
  let w' := MkWorld d (clock w) (trace w ++ [GetMovie (PyStr id)]) in
  (movie = None \/ movie = Some ∅ ->
   api_get_movie_by_id S id w =
     (w', Return {| body := dict_of [("status", PyStr "fail")];
                    status := 400 |}))
  /\ (forall m, movie = Some m -> m <> ∅ ->
      exists updated_type,
        api_get_movie_by_id S id w =
          (w', Return {| body := dict_of [
                           ("status", PyStr "success");
                           ("movie", PyDict m);
                           ("updated_type", PyStr updated_type)];
                         status := 200 |})
        /\ match m !! "lastupdated" with
           | None | Some PyNone => updated_type = "<class 'NoneType'>"
           | Some (PyBool _) => updated_type = "<class 'bool'>"
           | Some (PyInt _) => updated_type = "<class 'int'>"
           | Some (PyStr _) => updated_type = "<class 'str'>"
           | Some (PyList _) => updated_type = "<class 'list'>"
           | Some (PyDict _) => updated_type = "<class 'dict'>"
           | Some (PyDatetime _) =>
               updated_type = "<class 'datetime.datetime'>"
           | Some (PyObject cls) =>
               updated_type = "<class '" ++ cls ++ "'>"
           end).
Proof.
  intros Hget w'. unfold api_get_movie_by_id, bind, get_movie, invoke.
  rewrite Hget. split.
  - intros [->| ->]; [reflexivity|].
    destruct (decide ((∅ : dict) = ∅)); [reflexivity|done].
  - intros m -> Hm. destruct (decide (m = ∅)); [done|].
    eexists. split; [reflexivity|].
    unfold dict_get. destruct (m !! "lastupdated") as [[]|]; reflexivity.
Qed.

Lemma movie_by_id_response_witness :
  let id := "573a1390f29313caabcd4135" in
  (exists r, (api_get_movie_by_id
                (Scripted.services (Scripted.finds Scripted.stamped))
                id Scripted.start).2 = Return r
             /\ status r = 200
             /\ body r !! "updated_type" =
                  Some (PyStr "<class 'datetime.datetime'>"))
  /\ (exists r, (api_get_movie_by_id
                   (Scripted.services (Scripted.finds Scripted.unconverted))
                   id Scripted.start).2 = Return r
                /\ status r = 200
                /\ body r !! "updated_type" = Some (PyStr "<class 'str'>")).
Proof.
  cbv zeta. split.
  - destruct (movie_by_id_response
                (Scripted.services (Scripted.finds Scripted.stamped))
                "573a1390f29313caabcd4135" Scripted.start 1%nat
                (Some Scripted.stamped) eq_refl) as [_ Hsome].
    destruct (Hsome Scripted.stamped eq_refl) as (u & Hrun & Hu).
    { apply insert_non_empty. }
    vm_compute in Hu. subst u. rewrite Hrun.
    eexists. split; [reflexivity|]. split; [reflexivity|dict_lookup].
  - destruct (movie_by_id_response
                (Scripted.services (Scripted.finds Scripted.unconverted))
                "573a1390f29313caabcd4135" Scripted.start 1%nat
                (Some Scripted.unconverted) eq_refl) as [_ Hsome].
    destruct (Hsome Scripted.unconverted eq_refl) as (u & Hrun & Hu).
    { apply insert_non_empty. }
    vm_compute in Hu. subst u. rewrite Hrun.
    eexists. split; [reflexivity|]. split; [reflexivity|dict_lookup].
Defined.

(** C10: a non-empty record without a [lastupdated] entry is no error:
    the view answers with status [success] and 200, and [updated_type]
    is the rendering of the type of [None]. *)
Theorem movie_without_lastupdated {DB} (S : Services DB) (id : string)
    (w : world DB) (d : DB) (m : dict) :
  db_get_movie S (PyStr id) (db w) = (d, Return (Some m)) ->
  m <> ∅ ->
  m !! "lastupdated" = None ->
  api_get_movie_by_id S id w =
    (MkWorld d (clock w) (trace w ++ [GetMovie (PyStr id)]),
     Return {| body := dict_of [
                 ("status", PyStr "success");
                 ("movie", PyDict m);
                 ("updated_type", PyStr "<class 'NoneType'>")];
               status := 200 |}).
Proof.
  intros Hget Hm Hlast. unfold api_get_movie_by_id, bind, get_movie, invoke.
  rewrite Hget. destruct (decide (m = ∅)); [done|].
  unfold dict_get. rewrite Hlast. reflexivity.
Qed.

Lemma movie_without_lastupdated_witness :
  let S := Fixture.services Fixture.healthy in
  exists r, (api_get_movie_by_id S "573a1390f29313caabcd4135" Fixture.start).2
            = Return r
            /\ body r !! "updated_type" = Some (PyStr "<class 'NoneType'>")
            /\ status r = 200.
Proof.
  cbv zeta.
  rewrite (movie_without_lastupdated (Fixture.services Fixture.healthy)
             "573a1390f29313caabcd4135" Fixture.start 0%nat Fixture.jaws
             eq_refl).
  - eexists. split; [reflexivity|]. split; [dict_lookup|reflexivity].
  - vm_compute. discriminate.
  - vm_compute. reflexivity.
Defined.

(** ** Exceptions of the data layer *)

(** C8: on the faceted path (a non-empty cast), an exception of the
    faceted query is answered with [{status: fail, error: str(e)}] and
    status 200; an exception of the by-country lookup is answered with
    the same body and status 400. *)
Theorem exception_status_codes {DB} (S : Services DB) (req : request)
    (w : world DB) (d : DB) (e : pyexn) :
  let cast := str_list (args_getlist "cast" (args req)) in
  let countries := args_getlist "countries" (args req) in
  (args_getlist "cast" (args req) <> [] ->
   db_get_movies_faceted S {["cast" := cast]} (effective_page req) 20 (db w)
     = (d, Raise e) ->
   api_search_movies_faceted S req w =
     (MkWorld d (clock w)
        (trace w ++ [GetMoviesFaceted {["cast" := cast]} (effective_page req) 20]),
      Return {| body := dict_of [("status", PyStr "fail");
                                     ("error", PyStr (exn_str e))];
                    status := 200 |}))
  /\ (db_get_movies_by_country S countries (db w) = (d, Raise e) ->
      api_get_movies_by_country S req w =
        (MkWorld d (clock w) (trace w ++ [GetMoviesByCountry countries]),
         Return {| body := dict_of [("status", PyStr "fail");
                                        ("error", PyStr (exn_str e))];
                       status := 400 |})).
Proof.
  cbv zeta. split.
  - intros Hcast Hraise. rewrite (faceted_with_cast_run S req w Hcast).
    cbv zeta. rewrite Hraise. reflexivity.
  - intros Hraise.
    unfold api_get_movies_by_country, try_except, bind,
      get_movies_by_country, invoke.
    rewrite Hraise. reflexivity.
Qed.

Lemma exception_status_codes_witness :
  let S := Fixture.services Fixture.down in
  let req := MkRequest [("cast", "Roy Scheider"); ("countries", "Kosovo")]
               PyNone None in
  (exists r, (api_search_movies_faceted S req Fixture.start).2 = Return r
             /\ body r !! "status" = Some (PyStr "fail")
             /\ status r = 200)
  /\ (exists r, (api_get_movies_by_country S req Fixture.start).2 = Return r
                /\ body r !! "status" = Some (PyStr "fail")
                /\ status r = 400).
Proof.
  cbv zeta.
  destruct (exception_status_codes (Fixture.services Fixture.down)
              (MkRequest [("cast", "Roy Scheider"); ("countries", "Kosovo")]
                 PyNone None)
              Fixture.start 0%nat Fixture.unavailable) as [Hfacet Hcountry].
  rewrite Hfacet; [|discriminate|reflexivity].
  rewrite Hcountry; [|reflexivity].
  split; eexists; (split; [reflexivity|]); split; dict_lookup.
Defined.

(** ** Posting a comment *)

Lemma prefix_app (field rest : string) :
  String.prefix field (field ++ rest) = true.
Proof.
  apply String.prefix_correct.
  induction field as [|c field IH]; simpl.
  - destruct rest; reflexivity.
  - rewrite IH. reflexivity.
Qed.

Lemma mentions_prefix (field msg : string) :
  String.prefix field msg = true -> mentions field msg = true.
Proof.
  intros Hprefix. destruct msg; cbn [mentions]; rewrite Hprefix; reflexivity.
Qed.

Lemma mentions_app (field before msg : string) :
  mentions field msg = true -> mentions field (before ++ msg) = true.
Proof.
  intros Hmsg. induction before as [|c before IH]; [exact Hmsg|].
  change (mentions field (String c (before ++ msg)) = true).
  cbn [mentions]. rewrite IH. apply orb_true_r.
Qed.

(** The text of the error of [expect] names its field. *)
Lemma expect_message_names_field {DB} (S : Services DB) (field : string) :
  mentions field (expect_message S field) = true.
Proof.
  unfold expect_message. apply mentions_app, mentions_prefix, prefix_app.
Qed.

(** C9, as stated, fails: a request with no JSON in its body has no
    [movie_id]; the view answers the failure envelope, but its message is
    that of calling [get] on [None] and names no field. *)
Lemma body_without_json_names_no_field :
  let S := Fixture.services Fixture.healthy in
  let req := MkRequest [] PyNone
               (Some (dict_of [("email", PyStr "brody@amity.example")])) in
  let msg := "'NoneType' object has no attribute 'get'" in
  api_post_comment S req Fixture.start =
    (Fixture.start,
     Return {| body := dict_of [("status", PyStr "fail");
                                ("error", PyStr msg)];
               status := 200 |})
  /\ mentions "movie_id" msg = false.
Proof. cbv zeta. split; reflexivity. Qed.

(** C9, amended: for an authenticated request whose body is a JSON object
    without a [movie_id], or with one that is not a string, the view
    answers [{status: fail, error: msg}] where [msg] names [movie_id];
    nothing is asked of the data layer, so no comment is added.  With a
    proper [movie_id], the same holds for the field [comment].  When the
    body is not a JSON object, the view answers the same envelope and
    adds no comment either, with the message of calling [get] on that
    value. *)
Theorem post_comment_checks_fields {DB} (S : Services DB) (req : request)
    (w : world DB) (claims : dict) :
  jwt_claims req = Some claims ->
  let fails_with msg :=
    api_post_comment S req w =
      (w, Return {| body := dict_of [("status", PyStr "fail");
                                     ("error", PyStr msg)];
                    status := 200 |}) in
  (forall post_data,
     json req = PyDict post_data ->
     ((post_data !! "movie_id" = None
       \/ exists v, post_data !! "movie_id" = Some v /\ is_str v = false) ->
      exists msg, fails_with msg /\ mentions "movie_id" msg = true)
     /\ ((exists id, post_data !! "movie_id" = Some (PyStr id)) ->
         (post_data !! "comment" = None
          \/ exists v, post_data !! "comment" = Some v /\ is_str v = false) ->
         exists msg, fails_with msg /\ mentions "comment" msg = true))
  /\ ((forall post_data, json req <> PyDict post_data) ->
      fails_with ("'" ++ type_name (json req)
                  ++ "' object has no attribute 'get'")).
Proof.
  intros Hjwt fails_with. subst fails_with.
  unfold api_post_comment, jwt_required. rewrite Hjwt. split.
  - intros post_data Hjson. rewrite Hjson.
    unfold try_except, bind, py_get, expect, dict_get. split.
    + intros Hbad. exists (expect_message S "movie_id").
      split; [|apply expect_message_names_field].
      destruct Hbad as [->|(v & -> & Hv)]; simpl; [|rewrite Hv]; reflexivity.
    + intros [id ->] Hbad. exists (expect_message S "comment").
      split; [|apply expect_message_names_field].
      destruct Hbad as [->|(v & -> & Hv)]; simpl; [|rewrite Hv]; reflexivity.
  - intros Hjson. unfold try_except, bind, py_get.
    destruct (json req) as [| | | | |post_data| |];
      try (exfalso; exact (Hjson post_data eq_refl)); reflexivity.
Qed.

Lemma post_comment_checks_fields_witness :
  let S := Fixture.services Fixture.healthy in
  let req := MkRequest []
               (PyDict (dict_of [("comment", PyStr "We need a bigger boat")]))
               (Some (dict_of [("email", PyStr "brody@amity.example")])) in
  exists msg,
    api_post_comment S req Fixture.start =
      (Fixture.start,
       Return {| body := dict_of [("status", PyStr "fail");
                                  ("error", PyStr msg)];
                 status := 200 |})
    /\ mentions "movie_id" msg = true.
Proof.
  cbv zeta.
  destruct (post_comment_checks_fields (Fixture.services Fixture.healthy)
              (MkRequest []
                 (PyDict (dict_of [("comment",
                                    PyStr "We need a bigger boat")]))
                 (Some (dict_of [("email", PyStr "brody@amity.example")])))
              Fixture.start
              (dict_of [("email", PyStr "brody@amity.example")])
              eq_refl) as [Hobject _].
  destruct (Hobject (dict_of [("comment", PyStr "We need a bigger boat")])
              eq_refl) as [Hmovie _].
  apply Hmovie. left. vm_compute. reflexivity.
Defined.

(** ** The configuration *)

(** C1, as stated, fails: when the user-info mapping has a key [status],
    the response carries that value under [status], not [success]. *)
Lemma user_info_overrides_status :
  let out := get_conn_pool_size (Fixture.services Fixture.clashing)
               Fixture.start in
  exists r, out.2 = Return r
            /\ body r !! "status" = Some (PyStr "primary")
            /\ body r !! "status" <> Some (PyStr "success").
Proof.
  cbv zeta. eexists. split; [reflexivity|].
  split; [vm_compute; reflexivity|vm_compute; discriminate].
Qed.

(** C1, amended: for every configuration result
    (pool_size, write_concern, user_info) the response has status 200 and
    contains every key/value pair of user_info; under each of the keys
    [status], [pool_size] and [wtimeout] that user_info does not itself
    carry, it holds ['success'], the pool size, and the write-concern
    document's [wtimeout] (['0'] when absent); it has no other key. *)
Theorem config_response {DB} (S : Services DB) (w : world DB) (d : DB)
    (pool_size : pyval) (w_concern : WriteConcern) (user_info : dict) :
  db_get_configuration S (db w) = (d, Return (pool_size, w_concern, user_info)) ->
  exists r,
    get_conn_pool_size S w =
      (MkWorld d (clock w) (trace w ++ [GetConfiguration]), Return r)
    /\ status r = 200
    /\ (forall k v, user_info !! k = Some v -> body r !! k = Some v)
    /\ (user_info !! "status" = None ->
        body r !! "status" = Some (PyStr "success"))
    /\ (user_info !! "pool_size" = None ->
        body r !! "pool_size" = Some pool_size)
    /\ (user_info !! "wtimeout" = None ->
        body r !! "wtimeout" =
          Some (default (PyStr "0") (document w_concern !! "wtimeout")))
    /\ (forall k, k <> "status" -> k <> "pool_size" -> k <> "wtimeout" ->
        body r !! k = user_info !! k).
Proof.
  intros Hconf.
  unfold get_conn_pool_size, try_except, bind, get_configuration, invoke.
  rewrite Hconf. eexists. split; [reflexivity|].
  unfold jsonify, dict_unpack, dict_get_default, dict_of.
  cbn [body status foldl fst snd]. split; [reflexivity|]. split.
  { intros k v Hk. apply lookup_union_Some_l. exact Hk. }
  repeat split.
  - intros Hk. rewrite lookup_union_r by exact Hk.
    rewrite !lookup_insert_ne by discriminate. apply lookup_insert_eq.
  - intros Hk. rewrite lookup_union_r by exact Hk.
    rewrite lookup_insert_ne by discriminate. apply lookup_insert_eq.
  - intros Hk. rewrite lookup_union_r by exact Hk. apply lookup_insert_eq.
  - intros k H1 H2 H3. destruct (user_info !! k) as [v|] eqn:Hk.
    + apply lookup_union_Some_l. exact Hk.
    + rewrite lookup_union_r by exact Hk.
      rewrite !lookup_insert_ne by congruence. apply lookup_empty.
Qed.

Lemma config_response_witness :
  let S := Fixture.services Fixture.healthy in
  exists r, (get_conn_pool_size S Fixture.start).2 = Return r
            /\ body r !! "role" = Some (PyStr "readWrite")
            /\ body r !! "status" = Some (PyStr "success")
            /\ body r !! "pool_size" = Some (PyInt 50)
            /\ body r !! "wtimeout" = Some (PyInt 2500).
Proof.
  cbv zeta.
  destruct (config_response (Fixture.services Fixture.healthy) Fixture.start
              0%nat (PyInt 50)
              (MkWriteConcern (dict_of [("wtimeout", PyInt 2500)]))
              (dict_of [("role", PyStr "readWrite")]) eq_refl)
    as (r & Hrun & _ & Hinfo & Hstatus & Hpool & Hwt & _).
  exists r. rewrite Hrun. split; [reflexivity|].
  split; [apply Hinfo; vm_compute; reflexivity|].
  split; [apply Hstatus; vm_compute; reflexivity|].
  split; [apply Hpool; vm_compute; reflexivity|].
  rewrite Hwt by (vm_compute; reflexivity). vm_compute. reflexivity.
Defined.

(** * Further properties of the views *)

(** ** Tools *)

Section MoreRuns.
Context {DB : Type} (S : Services DB).

(** Reading a field of a JSON object and checking that it is a string. *)
Lemma expect_field_run (post_data : dict) (field : string) (w : world DB) :
  bind (py_get (PyDict post_data) field) (fun v => expect S v is_str field) w =
    (w, if is_str (dict_get post_data field)
        then Return (dict_get post_data field)
        else Raise (MkExn (ValidationError field) (expect_message S field))).
Proof.
  unfold bind, py_get, expect, ret, raise.
  destruct (is_str (dict_get post_data field)); reflexivity.
Qed.

(** A block guarded by [except Exception] always ends with a response:
    the one of the block, or the handler's for the block's exception. *)
Lemma try_except_Exception_run {A} (body : M DB A) (handler : pyexn -> A)
    (w : world DB) :
  try_except body [Exception] (fun e => ret (handler e)) w =
    ((body w).1,
     Return match (body w).2 with
            | Return a => a
            | Raise e => handler e
            end).
Proof.
  unfold try_except, ret. destruct (body w) as [w' [a|e]]; reflexivity.
Qed.

End MoreRuns.

(** ** The listing *)

(** X1: the listing view asks the data layer once, for page 0 of 20 films
    with [None] as filters.  Its response has the five keys [movies],
    [page], [filters], [entries_per_page] and [total_results] and, unlike
    the search view's, no [status] key; an exception of the data layer
    leaves the view as it is. *)
Theorem listing_has_no_status_key {DB} (S : Services DB) (w : world DB) :
  trace (api_get_movies S w).1 = (trace w ++ [GetMovies None 0 20])%list
  /\ match db_get_movies S None 0 20 (db w) with
     | (_, Return (movies, total)) =>
         exists r, (api_get_movies S w).2 = Return r
                   /\ status r = 200
                   /\ dom (body r) =
                        ({["movies"; "page"; "filters"; "entries_per_page";
                           "total_results"]} : gset string)
                   /\ body r !! "movies" = Some movies
                   /\ body r !! "page" = Some (PyInt 0)
                   /\ body r !! "filters" = Some (PyDict ∅)
                   /\ body r !! "entries_per_page" = Some (PyInt 20)
                   /\ body r !! "total_results" = Some total
     | (_, Raise e) => (api_get_movies S w).2 = Raise e
     end.
Proof.
  unfold api_get_movies, bind, get_movies, invoke.
  destruct (db_get_movies S None 0 20 (db w)) as [d [[movies total]|e]];
    simpl; (split; [reflexivity|]); [|reflexivity].
  eexists. split; [reflexivity|]. split; [reflexivity|]. split.
  { unfold jsonify, dict_of. cbn [body foldl fst snd].
    rewrite !dom_insert_L, dom_empty_L. set_solver. }
  repeat split; dict_lookup.
Qed.

(** ** Search *)

(** X2: the search view has no guard: an exception of the paged query
    leaves the view unchanged, after that one call.  The guard of the
    faceted view does not cover its fallback: without a cast, the same
    exception leaves the faceted view too. *)
Theorem search_lets_data_layer_errors_through {DB} (S : Services DB)
    (req : request) (w : world DB) (d : DB) (e : pyexn) :
  db_get_movies S (Some (search_filters req).1) (effective_page req) 20 (db w)
    = (d, Raise e) ->
  let w' := MkWorld d (clock w)
              (trace w ++ [GetMovies (Some (search_filters req).1)
                             (effective_page req) 20]) in
  api_search_movies S req w = (w', Raise e)
  /\ (args_getlist "cast" (args req) = [] ->
      api_search_movies_faceted S req w = (w', Raise e)).
Proof.
  intros Hraise w'.
  assert (Hsearch : api_search_movies S req w = (w', Raise e)).
  { rewrite api_search_movies_run. cbv zeta. rewrite Hraise. reflexivity. }
  split; [exact Hsearch|].
  intros Hcast. rewrite faceted_without_cast_run by exact Hcast. exact Hsearch.
Qed.

Lemma search_lets_data_layer_errors_through_witness :
  let S := Scripted.services Scripted.broken in
  let req := MkRequest [("genre", "Thriller")] PyNone None in
  (api_search_movies S req Scripted.start).2 = Raise Scripted.timeout
  /\ (api_search_movies_faceted S req Scripted.start).2
     = Raise Scripted.timeout.
Proof.
  cbv zeta.
  destruct (search_lets_data_layer_errors_through
              (Scripted.services Scripted.broken)
              (MkRequest [("genre", "Thriller")] PyNone None)
              Scripted.start 1%nat Scripted.timeout eq_refl)
    as [Hsearch Hfacet].
  rewrite Hsearch, Hfacet; [split; reflexivity|reflexivity].
Defined.

(** X3: the search view reads four things of a request: the first [page]
    value, all [cast] values, all [genre] values and the first [text]
    value.  Two requests that agree on them end in the same way, whatever
    else they carry. *)
Theorem search_reads_four_parameters {DB} (S : Services DB)
    (req1 req2 : request) (w : world DB) :
  same_search_parameters req1 req2 ->
  api_search_movies S req1 w = api_search_movies S req2 w.
Proof.
  intros (Hpage & Hcast & Hgenre & Htext).
  rewrite !api_search_movies_run.
  assert (effective_page req1 = effective_page req2) as ->
    by (unfold effective_page; rewrite Hpage; reflexivity).
  assert (search_filters req1 = search_filters req2) as ->
    by (unfold search_filters; rewrite Hcast, Hgenre, Htext; reflexivity).
  reflexivity.
Qed.

Lemma search_reads_four_parameters_witness :
  let S := Fixture.services Fixture.healthy in
  api_search_movies S
    (MkRequest [("text", "shark"); ("sort", "year"); ("page", "2");
                ("text", "boat")] PyNone None) Fixture.start
  = api_search_movies S
      (MkRequest [("page", "2"); ("text", "shark")] (PyStr "ignored")
         (Some ∅)) Fixture.start.
Proof.
  cbv zeta.
  apply (search_reads_four_parameters (Fixture.services Fixture.healthy)).
  repeat split.
Defined.

(** X4: the two filter mappings of a search have the same number of
    entries, at most three; the internal one has no key besides [cast],
    [genres] and [text], the one for the client none besides [cast],
    [genre] and [search]; and both are empty exactly when the request has
    no cast, no genre and no non-empty text. *)
Theorem search_filter_mappings_match (req : request) :
  let filters := (search_filters req).1 in
  let return_filters := (search_filters req).2 in
  size filters = size return_filters
  /\ (size filters <= 3)%nat
  /\ dom filters ⊆ ({["cast"; "genres"; "text"]} : gset string)
  /\ dom return_filters ⊆ ({["cast"; "genre"; "search"]} : gset string)
  /\ (filters = ∅ <-> return_filters = ∅)
  /\ (filters = ∅ <->
      args_getlist "cast" (args req) = []
      /\ args_getlist "genre" (args req) = []
      /\ (args_get "text" (args req) = None
          \/ args_get "text" (args req) = Some "")).
Proof.
  cbv zeta. unfold search_filters.
  destruct (args_getlist "cast" (args req)) as [|a cast];
    destruct (args_getlist "genre" (args req)) as [|g genre];
    destruct (args_get "text" (args req)) as [[|c s]|];
    cbn [fst snd];
    (split; [rewrite ?map_size_insert_None, ?map_size_empty
               by (rewrite ?lookup_insert_ne by discriminate;
                   apply lookup_empty);
             reflexivity|]);
    (split; [rewrite ?map_size_insert_None, ?map_size_empty
               by (rewrite ?lookup_insert_ne by discriminate;
                   apply lookup_empty);
             lia|]);
    (split; [rewrite ?dom_insert_L, ?dom_empty_L; set_solver|]);
    (split; [rewrite ?dom_insert_L, ?dom_empty_L; set_solver|]);
    split; split;
    first
      [ intros Hempty; exfalso; exact (insert_non_empty _ _ _ Hempty)
      | intros (Hc & Hg & Ht); exfalso;
        first [ discriminate Hc | discriminate Hg
              | destruct Ht as [Ht|Ht]; discriminate Ht ]
      | auto ].
Qed.

(** ** Faceted search with a cast *)

(** X5: with a non-empty cast, the faceted view reads only the first
    [page] value and the [cast] values of a request (genre and text are
    ignored), never raises, and always answers with status 200, whether
    the body says [success] or [fail]. *)
Theorem faceted_with_cast_reads_page_and_cast {DB} (S : Services DB)
    (req1 req2 : request) (w : world DB) :
  args_getlist "cast" (args req1) <> [] ->
  args_get "page" (args req1) = args_get "page" (args req2) ->
  args_getlist "cast" (args req1) = args_getlist "cast" (args req2) ->
  api_search_movies_faceted S req1 w = api_search_movies_faceted S req2 w
  /\ exists r, (api_search_movies_faceted S req1 w).2 = Return r
               /\ status r = 200
               /\ (body r !! "status" = Some (PyStr "success")
                   \/ body r !! "status" = Some (PyStr "fail")).
Proof.
  intros Hne Hpage Hcast. split.
  - rewrite (faceted_with_cast_run S req1 w Hne).
    rewrite (faceted_with_cast_run S req2 w) by (rewrite <- Hcast; exact Hne).
    assert (effective_page req1 = effective_page req2) as ->
      by (unfold effective_page; rewrite Hpage; reflexivity).
    rewrite Hcast. reflexivity.
  - rewrite (faceted_with_cast_run S req1 w Hne). cbv zeta.
    destruct (db_get_movies_faceted S _ _ _ _) as [d [[movies total]|e]];
      simpl; eexists; (split; [reflexivity|]); (split; [reflexivity|]);
      [left|right]; dict_lookup.
Qed.

Lemma faceted_with_cast_reads_page_and_cast_witness :
  let S := Fixture.services Fixture.down in
  api_search_movies_faceted S
    (MkRequest [("cast", "Roy Scheider"); ("genre", "Thriller")] PyNone None)
    Fixture.start
  = api_search_movies_faceted S
      (MkRequest [("text", "shark"); ("cast", "Roy Scheider")] PyNone None)
      Fixture.start.
Proof.
  cbv zeta.
  apply (faceted_with_cast_reads_page_and_cast
           (Fixture.services Fixture.down)
           (MkRequest [("cast", "Roy Scheider"); ("genre", "Thriller")]
              PyNone None)
           (MkRequest [("text", "shark"); ("cast", "Roy Scheider")]
              PyNone None)
           Fixture.start);
    [discriminate|reflexivity|reflexivity].
Defined.

(** X6: when the faceted query returns, the response is a success whatever
    keys the returned mapping has: [movies] and the two entries [runtime]
    and [rating] of [facets] are read with [get], so a missing key shows
    as [None]; [facets] has exactly these two entries, and [filters]
    exactly the cast. *)
Theorem faceted_response_tolerates_missing_keys {DB} (S : Services DB)
    (req : request) (w : world DB) (d : DB) (movies : dict) (total : pyval) :
  let cast := str_list (args_getlist "cast" (args req)) in
  args_getlist "cast" (args req) <> [] ->
  db_get_movies_faceted S {["cast" := cast]} (effective_page req) 20 (db w)
    = (d, Return (movies, total)) ->
  exists r facets,
    (api_search_movies_faceted S req w).2 = Return r
    /\ status r = 200
    /\ body r !! "status" = Some (PyStr "success")
    /\ body r !! "movies" = Some (default PyNone (movies !! "movies"))
    /\ body r !! "facets" = Some (PyDict facets)
    /\ dom facets = ({["runtime"; "rating"]} : gset string)
    /\ facets !! "runtime" = Some (default PyNone (movies !! "runtime"))
    /\ facets !! "rating" = Some (default PyNone (movies !! "rating"))
    /\ body r !! "filters" = Some (PyDict {["cast" := cast]})
    /\ body r !! "total_results" = Some total.
Proof.
  intros cast Hne Hret. rewrite (faceted_with_cast_run S req w Hne).
  cbv zeta. fold cast. rewrite Hret. simpl.
  eexists. eexists. split; [reflexivity|]. split; [reflexivity|].
  split; [dict_lookup|]. split; [dict_lookup|]. split; [dict_lookup|].
  split.
  { unfold dict_of. cbn [foldl fst snd].
    rewrite !dom_insert_L, dom_empty_L. set_solver. }
  repeat split; dict_lookup.
Qed.

Lemma faceted_response_tolerates_missing_keys_witness :
  let S := Fixture.services Fixture.clashing in
  let req := MkRequest [("cast", "Roy Scheider")] PyNone None in
  exists r, (api_search_movies_faceted S req Fixture.start).2 = Return r
            /\ body r !! "status" = Some (PyStr "success")
            /\ body r !! "movies" = Some PyNone.
Proof.
  cbv zeta.
  destruct (faceted_response_tolerates_missing_keys
              (Fixture.services Fixture.clashing)
              (MkRequest [("cast", "Roy Scheider")] PyNone None)
              Fixture.start 0%nat ∅ (PyInt 0))
    as (r & facets & Hrun & _ & Hstatus & Hmovies & _);
    [discriminate|reflexivity|].
  exists r. split; [exact Hrun|]. split; [exact Hstatus|exact Hmovies].
Defined.

(** ** Movies by country, configuration *)

(** X7: the by-country view never raises.  It asks the data layer once,
    with all the values of [countries] in the order of the query string
    (none gives the empty list); it answers 200 with the titles when the
    lookup returns and 400 when it raises. *)
Theorem by_country_always_responds {DB} (S : Services DB) (req : request)
    (w : world DB) :
  let countries := args_getlist "countries" (args req) in
  trace (api_get_movies_by_country S req w).1 =
    (trace w ++ [GetMoviesByCountry countries])%list
  /\ exists r,
       (api_get_movies_by_country S req w).2 = Return r
       /\ match (db_get_movies_by_country S countries (db w)).2 with
          | Return titles =>
              status r = 200
              /\ body r = dict_of [("status", PyStr "success");
                                   ("titles", titles)]
          | Raise e =>
              status r = 400
              /\ body r = dict_of [("status", PyStr "fail");
                                   ("error", PyStr (exn_str e))]
          end.
Proof.
  cbv zeta.
  unfold api_get_movies_by_country, try_except, bind, get_movies_by_country,
    invoke.
  destruct (db_get_movies_by_country S _ (db w)) as [d [titles|e]]; simpl;
    (split; [reflexivity|]); eexists; (split; [reflexivity|]);
    split; reflexivity.
Qed.

(** X8: the configuration view never raises and always answers with
    status 200: an exception of the data layer is reported in the body
    only, as [{status: fail, error: str(e)}]. *)
Theorem config_always_responds_200 {DB} (S : Services DB) (w : world DB) :
  trace (get_conn_pool_size S w).1 = (trace w ++ [GetConfiguration])%list
  /\ exists r,
       (get_conn_pool_size S w).2 = Return r
       /\ status r = 200
       /\ match (db_get_configuration S (db w)).2 with
          | Return _ => True
          | Raise e => r = fail_response e
          end.
Proof.
  unfold get_conn_pool_size. rewrite try_except_Exception_run.
  unfold bind, get_configuration, invoke.
  destruct (db_get_configuration S (db w)) as [d [[[pool wc] ui]|e]]; simpl;
    (split; [reflexivity|]); eexists; (split; [reflexivity|]);
    split; try reflexivity; exact I.
Qed.

(** ** Movie by id *)

(** X9: the by-id view asks the data layer once, for the id as a string.
    A success response (200) always carries a non-empty record under
    [movie]; a failure response (400) is exactly [{status: fail}], with
    no error text; and the view raises only what the lookup raised. *)
Theorem by_id_outcomes {DB} (S : Services DB) (id : string) (w : world DB) :
  trace (api_get_movie_by_id S id w).1 =
    (trace w ++ [GetMovie (PyStr id)])%list
  /\ match (api_get_movie_by_id S id w).2 with
     | Return r =>
         (status r = 200
          /\ body r !! "status" = Some (PyStr "success")
          /\ exists m, body r !! "movie" = Some (PyDict m) /\ m <> ∅)
         \/ (status r = 400
             /\ body r = {["status" := PyStr "fail"]}
             /\ body r !! "error" = None)
     | Raise e => (db_get_movie S (PyStr id) (db w)).2 = Raise e
     end.
Proof.
  unfold api_get_movie_by_id, bind, get_movie, invoke.
  destruct (db_get_movie S (PyStr id) (db w)) as [d [[m|]|e]]; simpl.
  - destruct (decide (m = ∅)) as [->|Hm]; simpl; (split; [reflexivity|]).
    + right. split; [reflexivity|]. split; [reflexivity|]. dict_lookup.
    + left. split; [reflexivity|]. split; [dict_lookup|].
      exists m. split; [dict_lookup|exact Hm].
  - split; [reflexivity|]. right.
    split; [reflexivity|]. split; [reflexivity|]. dict_lookup.
  - split; reflexivity.
Qed.

(** ** The page a numeral spells *)

Lemma pretty_N_char_digit (r : N) :
  (r < 10)%N -> digit_value (pretty_N_char r) = Some (Z.of_N r).
Proof.
  intros Hr.
  assert (r = 0 \/ r = 1 \/ r = 2 \/ r = 3 \/ r = 4 \/ r = 5 \/ r = 6
          \/ r = 7 \/ r = 8 \/ r = 9)%N as Hcases by lia.
  repeat (destruct Hcases as [->|Hcases]; [reflexivity|]).
  subst r. reflexivity.
Qed.

(** Parsing the digits of a positive number reads the number. *)
Lemma parse_digits_pretty_N_go (x : N) :
  forall (s : string) (b : bool),
    (0 < x)%N ->
    parse_digits 0 b (list_ascii_of_string (pretty_N_go x s)) =
      parse_digits (Z.of_N x) true (list_ascii_of_string s).
Proof.
  induction (N.lt_wf_0 x) as [x _ IH]. intros s b Hx.
  rewrite pretty_N_go_step by exact Hx.
  assert (Hr : (x `mod` 10 < 10)%N) by (apply N.mod_lt; discriminate).
  assert (Hsplit : (x = 10 * (x `div` 10) + x `mod` 10)%N)
    by (apply N.div_mod; discriminate).
  destruct (decide (x `div` 10 = 0)%N) as [Hq|Hq].
  - rewrite Hq, pretty_N_go_0. simpl.
    rewrite (pretty_N_char_digit _ Hr). f_equal. lia.
  - rewrite IH; [|apply N.div_lt; [exact Hx|reflexivity]|lia]. simpl.
    rewrite (pretty_N_char_digit _ Hr). f_equal. lia.
Qed.

Lemma pretty_N_char_numeral (r : N) : numeral_char (pretty_N_char r).
Proof.
  unfold pretty_N_char.
  repeat split; repeat case_match; (reflexivity || discriminate).
Qed.

Lemma pretty_N_go_numeral (x : N) :
  forall s : string,
    Forall numeral_char (list_ascii_of_string s) ->
    Forall numeral_char (list_ascii_of_string (pretty_N_go x s)).
Proof.
  induction (N.lt_wf_0 x) as [x _ IH]. intros s Hs.
  destruct (decide (0 < x)%N) as [Hx|Hx].
  - rewrite pretty_N_go_step by exact Hx.
    apply IH; [apply N.div_lt; [exact Hx|reflexivity]|].
    simpl. constructor; [apply pretty_N_char_numeral|exact Hs].
  - assert (x = 0%N) as -> by lia. rewrite pretty_N_go_0. exact Hs.
Qed.

Lemma lstrip_numeral (cs : list ascii) :
  Forall numeral_char cs -> lstrip cs = cs.
Proof.
  intros [|c cs' (_ & Hc & _) _]; [reflexivity|]. simpl. rewrite Hc.
  reflexivity.
Qed.

Lemma strip_numeral (cs : list ascii) :
  Forall numeral_char cs -> strip cs = cs.
Proof.
  intros Hcs. unfold strip. rewrite (lstrip_numeral cs Hcs).
  rewrite lstrip_numeral by (apply Forall_rev; exact Hcs).
  apply rev_involutive.
Qed.

Lemma str_int_pos (p : positive) :
  str_int (Z.pos p) = pretty_N_go (N.pos p) "".
Proof. reflexivity. Qed.

Lemma str_int_neg (p : positive) :
  str_int (Z.neg p) = String "-" (pretty_N_go (N.pos p) "").
Proof. reflexivity. Qed.

(** The bytes of a numeral are their own code points, and the rewriting
    into ASCII leaves them as they are. *)
Lemma utf8_decode_numeral (cs : list ascii) :
  Forall numeral_char cs -> utf8_decode cs = Some (code <$> cs).
Proof.
  induction 1 as [|c cs (Hc & _) _ IH]; [reflexivity|].
  simpl. rewrite IH.
  destruct (code c <? 128)%Z eqn:Hlt; [reflexivity|].
  apply Z.ltb_ge in Hlt. lia.
Qed.

Lemma to_ascii_numeral (cs : list ascii) :
  Forall numeral_char cs -> decimal_and_space_to_ascii <$> (code <$> cs) = cs.
Proof.
  induction 1 as [|c cs (Hc & _) _ IH]; [reflexivity|].
  rewrite !fmap_cons, IH. f_equal. unfold decimal_and_space_to_ascii.
  destruct (code c <? 127)%Z eqn:Hlt; [|apply Z.ltb_ge in Hlt; lia].
  unfold code. rewrite Nat2Z.id. apply ascii_nat_embedding.
Qed.

(** A number below [10 ^ k] is written with at most [k] digits. *)
Lemma pretty_N_go_length (x : N) :
  forall (k : nat) (s : string),
    (x < 10 ^ N.of_nat k)%N ->
    (length (list_ascii_of_string (pretty_N_go x s))
     <= k + length (list_ascii_of_string s))%nat.
Proof.
  induction (N.lt_wf_0 x) as [x _ IH]. intros k s Hk.
  destruct (decide (0 < x)%N) as [Hx|Hx].
  - rewrite pretty_N_go_step by exact Hx.
    destruct k as [|k]; [simpl in Hk; lia|].
    rewrite Nat2N.inj_succ, N.pow_succ_r' in Hk.
    assert (Hq : (x `div` 10 < 10 ^ N.of_nat k)%N)
      by (apply N.Div0.div_lt_upper_bound; exact Hk).
    pose proof (IH (x `div` 10)%N
                  (N.div_lt x 10 Hx eq_refl) k
                  (String (pretty_N_char (x `mod` 10)) s) Hq) as Hlen.
    simpl in Hlen. lia.
  - assert (x = 0%N) as -> by lia. rewrite pretty_N_go_0. lia.
Qed.

Lemma count_digits_le_length (cs : list ascii) :
  count_digits cs <= Z.of_nat (length cs).
Proof.
  unfold count_digits. apply inj_le. apply List.filter_length_le.
Qed.

(** A positive number of at most [max_str_digits] digits is read back
    from its digits. *)
Lemma int_digits_pretty_N_go (p : positive) :
  Z.pos p < 10 ^ max_str_digits ->
  int_digits (list_ascii_of_string (pretty_N_go (N.pos p) "")) =
    Some (Z.pos p).
Proof.
  intros Hp. unfold int_digits.
  assert (Hmax : 0 <= max_str_digits) by (unfold max_str_digits; lia).
  assert (Hk : (N.pos p < 10 ^ N.of_nat (Z.to_nat max_str_digits))%N).
  { apply N2Z.inj_lt. rewrite N2Z.inj_pow, nat_N_Z, Z2Nat.id by exact Hmax.
    exact Hp. }
  pose proof (pretty_N_go_length (N.pos p) _ "" Hk) as Hlen.
  pose proof (count_digits_le_length
                (list_ascii_of_string (pretty_N_go (N.pos p) ""))) as Hcount.
  change (length (list_ascii_of_string "")) with 0%nat in Hlen.
  destruct (max_str_digits <? count_digits _)%Z eqn:Hover.
  - apply Z.ltb_lt in Hover. lia.
  - exact (parse_digits_pretty_N_go (N.pos p) "" false eq_refl).
Qed.

(** [int(str(n)) = n], for a numeral within the limit on digits. *)
Lemma py_int_str_int (n : Z) :
  Z.abs n < 10 ^ max_str_digits -> py_int (str_int n) = Some n.
Proof.
  destruct n as [|p|p]; [reflexivity| |]; intros Hn;
    pose proof (pretty_N_go_numeral (N.pos p) "" (Forall_nil_2 _)) as Hnum;
    pose proof (int_digits_pretty_N_go p Hn) as Hdigits.
  - rewrite str_int_pos. unfold py_int.
    rewrite (utf8_decode_numeral _ Hnum), (to_ascii_numeral _ Hnum),
      (strip_numeral _ Hnum).
    destruct (list_ascii_of_string (pretty_N_go (N.pos p) "")) as [|c cs];
      [exact Hdigits|].
    inversion Hnum as [|? ? (_ & _ & Hplus) _]; subst.
    destruct c as [[] [] [] [] [] [] [] []];
      try exact Hdigits; try (exfalso; apply Hplus; reflexivity).
    unfold int_digits in Hdigits.
    destruct (max_str_digits <? count_digits _)%Z; discriminate Hdigits.
  - rewrite str_int_neg. unfold py_int. simpl list_ascii_of_string.
    assert (Hminus : Forall numeral_char
                       ("-"%char
                        :: list_ascii_of_string (pretty_N_go (N.pos p) "")))
      by (constructor; [repeat split; (reflexivity || discriminate)
                       |exact Hnum]).
    rewrite (utf8_decode_numeral _ Hminus), (to_ascii_numeral _ Hminus),
      (strip_numeral _ Hminus).
    rewrite Hdigits. reflexivity.
Qed.

Lemma digit_is_numeral_char (c : ascii) :
  is_Some (digit_value c) -> numeral_char c.
Proof.
  intros [d Hd]. destruct c as [[] [] [] [] [] [] [] []];
    try discriminate Hd; repeat split; (reflexivity || discriminate).
Qed.

(** A numeral of more than [max_str_digits] digits is refused, whatever
    the number: its page is 0. *)
Lemma py_int_refuses_long_numerals (s : string) :
  Forall (fun c => is_Some (digit_value c)) (list_ascii_of_string s) ->
  max_str_digits < Z.of_nat (String.length s) ->
  py_int s = None.
Proof.
  intros Hdigits Hlong.
  assert (Hnum : Forall numeral_char (list_ascii_of_string s))
    by (eapply Forall_impl; [exact Hdigits|apply digit_is_numeral_char]).
  assert (Hcount : count_digits (list_ascii_of_string s)
                   = Z.of_nat (String.length s)).
  { unfold count_digits. f_equal. clear Hlong Hnum.
    induction s as [|c s IH]; [reflexivity|].
    simpl in Hdigits |- *. inversion Hdigits as [|? ? Hc Hrest]; subst.
    rewrite bool_decide_eq_true_2 by exact Hc. simpl. f_equal.
    apply IH. exact Hrest. }
  assert (Hrefused : int_digits (list_ascii_of_string s) = None).
  { unfold int_digits. rewrite Hcount.
    destruct (max_str_digits <? Z.of_nat (String.length s))%Z eqn:Hover;
      [reflexivity|apply Z.ltb_ge in Hover; lia]. }
  unfold py_int.
  rewrite (utf8_decode_numeral _ Hnum), (to_ascii_numeral _ Hnum),
    (strip_numeral _ Hnum).
  destruct (list_ascii_of_string s) as [|c cs]; [exact Hrefused|].
  inversion Hdigits as [|? ? [d Hd] _]; subst.
  destruct c as [[] [] [] [] [] [] [] []];
    try discriminate Hd; exact Hrefused.
Qed.

(** X10: a [page] parameter that is the decimal numeral of an integer [n]
    (as [str(n)] writes it, with a minus sign when negative) of at most
    [max_str_digits] digits gives page [n]: reading it raises nothing,
    and the search view asks the data layer for page [n]. *)
Theorem page_numeral_is_read_back {DB} (S : Services DB) (req : request)
    (w : world DB) (n : Z) :
  Z.abs n < 10 ^ max_str_digits ->
  args_get "page" (args req) = Some (str_int n) ->
  effective_page req = n
  /\ request_page req w = (w, Return n)
  /\ trace (api_search_movies S req w).1 =
       (trace w ++ [GetMovies (Some (search_filters req).1) n 20])%list.
Proof.
  intros Hdigits Hpage.
  assert (Hn : effective_page req = n).
  { unfold effective_page.
    rewrite Hpage, (py_int_str_int n Hdigits). reflexivity. }
  split; [exact Hn|]. split; [rewrite request_page_run, Hn; reflexivity|].
  rewrite api_search_movies_run, Hn. cbv zeta.
  destruct (db_get_movies S _ _ _ _) as [d r]. reflexivity.
Qed.

Lemma page_numeral_is_read_back_witness :
  let req := MkRequest [("page", "1975")] PyNone None in
  effective_page req = 1975
  /\ trace (api_search_movies (Fixture.services Fixture.healthy) req
              Fixture.start).1 = [GetMovies (Some ∅) 1975 20].
Proof.
  cbv zeta.
  destruct (page_numeral_is_read_back (Fixture.services Fixture.healthy)
              (MkRequest [("page", "1975")] PyNone None) Fixture.start 1975)
    as (Hn & _ & Htrace); [vm_compute; reflexivity|reflexivity|].
  split; [exact Hn|exact Htrace].
Defined.

(** ** Search and listing *)

(** X11: on a request without [page], [cast], [genre] and [text], and over
    a data layer that answers the empty mapping as it answers [None], the
    search view returns the listing's response with one more entry,
    [status: success]; and it raises what the listing raises. *)
Theorem bare_search_is_the_listing {DB} (S : Services DB) (req : request)
    (w : world DB) :
  args_get "page" (args req) = None ->
  args_getlist "cast" (args req) = [] ->
  args_getlist "genre" (args req) = [] ->
  args_get "text" (args req) = None ->
  db_get_movies S (Some ∅) 0 20 (db w) = db_get_movies S None 0 20 (db w) ->
  db (api_search_movies S req w).1 = db (api_get_movies S w).1
  /\ match (api_get_movies S w).2 with
     | Return listing =>
         exists r, (api_search_movies S req w).2 = Return r
                   /\ body r = <["status" := PyStr "success"]> (body listing)
                   /\ status r = status listing
     | Raise e => (api_search_movies S req w).2 = Raise e
     end.
Proof.
  intros Hpage Hcast Hgenre Htext Hsame.
  rewrite api_search_movies_run.
  assert (effective_page req = 0) as ->
    by (unfold effective_page; rewrite Hpage; reflexivity).
  assert (search_filters req = (∅, ∅)) as ->
    by (unfold search_filters; rewrite Hcast, Hgenre, Htext; reflexivity).
  cbv zeta. cbn [fst snd]. rewrite Hsame.
  unfold api_get_movies, bind, get_movies, invoke.
  destruct (db_get_movies S None 0 20 (db w)) as [d [[movies total]|e]];
    simpl; (split; [reflexivity|]); [|reflexivity].
  eexists. split; [reflexivity|]. split; [|reflexivity].
  unfold jsonify, dict_of. cbn [body foldl fst snd].
  apply map_eq. intros k. rewrite !lookup_insert.
  repeat case_decide; congruence.
Qed.

Lemma bare_search_is_the_listing_witness :
  let S := Fixture.services Fixture.healthy in
  let req := MkRequest [("sort", "year")] PyNone None in
  exists r listing,
    (api_search_movies S req Fixture.start).2 = Return r
    /\ (api_get_movies S Fixture.start).2 = Return listing
    /\ body r = <["status" := PyStr "success"]> (body listing).
Proof.
  cbv zeta.
  destruct (bare_search_is_the_listing (Fixture.services Fixture.healthy)
              (MkRequest [("sort", "year")] PyNone None) Fixture.start
              eq_refl eq_refl eq_refl eq_refl eq_refl) as [_ Hresp].
  destruct ((api_get_movies (Fixture.services Fixture.healthy)
               Fixture.start).2) as [listing|e] eqn:Hlisting;
    [|discriminate Hlisting].
  destruct Hresp as (r & Hr & Hbody & _).
  exists r, listing. split; [exact Hr|]. split; [reflexivity|exact Hbody].
Defined.

(** ** The comment views *)

Section CommentRuns.
Context {DB : Type} (S : Services DB).

(** The create view on a well-formed body: it stores, then refetches. *)
Lemma api_post_comment_run (req : request) (w : world DB)
    (claims post_data : dict) (movie_id comment : string) :
  jwt_claims req = Some claims ->
  json req = PyDict post_data ->
  post_data !! "movie_id" = Some (PyStr movie_id) ->
  post_data !! "comment" = Some (PyStr comment) ->
  api_post_comment S req w =
    let user := user_from_claims S claims in
    let now := PyDatetime (clock w) in
    let add := AddComment (PyStr movie_id) user (PyStr comment) now in
    match db_add_comment S (PyStr movie_id) user (PyStr comment) now (db w) with
    | (d1, Raise e) =>
        (MkWorld d1 (clock w) (trace w ++ [add]), Return (fail_response e))
    | (d1, Return _) =>
        let (d2, movie) := db_get_movie S (PyStr movie_id) d1 in
        (MkWorld d2 (clock w) (trace w ++ [add; GetMovie (PyStr movie_id)]),
         Return (refetched movie))
    end.
Proof.
  intros Hjwt Hjson Hmovie Hcomment.
  unfold api_post_comment, jwt_required, get_jwt_claims.
  rewrite Hjwt, Hjson.
  unfold try_except, bind, py_get, expect, dict_get, datetime_now,
    add_comment, update_comment, delete_comment, get_movie, invoke, ret, raise.
  rewrite Hmovie, Hcomment. simpl.
  destruct (db_add_comment S _ _ _ _ (db w)) as [d1 [[]|e]]; simpl;
    [|reflexivity].
  destruct (db_get_movie S (PyStr movie_id) d1) as [d2 [[m|]|e]]; simpl;
    rewrite <- app_assoc; reflexivity.
Qed.

(** The update view on a well-formed body. *)
Lemma api_update_comment_run (req : request) (w : world DB)
    (claims post_data : dict) (comment_id updated_comment movie_id : string) :
  jwt_claims req = Some claims ->
  json req = PyDict post_data ->
  post_data !! "comment_id" = Some (PyStr comment_id) ->
  post_data !! "updated_comment" = Some (PyStr updated_comment) ->
  post_data !! "movie_id" = Some (PyStr movie_id) ->
  api_update_comment S req w =
    let user_email := email (user_from_claims S claims) in
    let now := PyDatetime (clock w) in
    let update := UpdateComment (PyStr comment_id) user_email
                    (PyStr updated_comment) now in
    match db_update_comment S (PyStr comment_id) user_email
            (PyStr updated_comment) now (db w) with
    | (d1, Raise e) =>
        (MkWorld d1 (clock w) (trace w ++ [update]), Return (fail_response e))
    | (d1, Return _) =>
        let (d2, movie) := db_get_movie S (PyStr movie_id) d1 in
        (MkWorld d2 (clock w)
           (trace w ++ [update; GetMovie (PyStr movie_id)]),
         Return (refetched movie))
    end.
Proof.
  intros Hjwt Hjson Hid Htext Hmovie.
  unfold api_update_comment, jwt_required, get_jwt_claims.
  rewrite Hjwt, Hjson.
  unfold try_except, bind, py_get, expect, dict_get, datetime_now,
    add_comment, update_comment, delete_comment, get_movie, invoke, ret, raise.
  rewrite Hid, Htext, Hmovie. simpl.
  destruct (db_update_comment S _ _ _ _ (db w)) as [d1 [[]|e]]; simpl;
    [|reflexivity].
  destruct (db_get_movie S (PyStr movie_id) d1) as [d2 [[m|]|e]]; simpl;
    rewrite <- app_assoc; reflexivity.
Qed.

(** The delete view on a well-formed body. *)
Lemma api_delete_comment_run (req : request) (w : world DB)
    (claims post_data : dict) (comment_id movie_id : string) :
  jwt_claims req = Some claims ->
  json req = PyDict post_data ->
  post_data !! "comment_id" = Some (PyStr comment_id) ->
  post_data !! "movie_id" = Some (PyStr movie_id) ->
  api_delete_comment S req w =
    let user_email := email (user_from_claims S claims) in
    let delete := DeleteComment (PyStr comment_id) user_email in
    match db_delete_comment S (PyStr comment_id) user_email (db w) with
    | (d1, Raise e) =>
        (MkWorld d1 (clock w) (trace w ++ [delete]), Return (fail_response e))
    | (d1, Return _) =>
        let (d2, movie) := db_get_movie S (PyStr movie_id) d1 in
        (MkWorld d2 (clock w)
           (trace w ++ [delete; GetMovie (PyStr movie_id)]),
         Return (refetched movie))
    end.
Proof.
  intros Hjwt Hjson Hid Hmovie.
  unfold api_delete_comment, jwt_required, get_jwt_claims.
  rewrite Hjwt, Hjson.
  unfold try_except, bind, py_get, expect, dict_get, datetime_now,
    add_comment, update_comment, delete_comment, get_movie, invoke, ret, raise.
  rewrite Hid, Hmovie. simpl.
  destruct (db_delete_comment S _ _ (db w)) as [d1 [[]|e]]; simpl;
    [|reflexivity].
  destruct (db_get_movie S (PyStr movie_id) d1) as [d2 [[m|]|e]]; simpl;
    rewrite <- app_assoc; reflexivity.
Qed.

End CommentRuns.

(** X12: creating a comment with a well-formed body: the view stores the
    comment under the caller's user, stamped with the server's clock, then
    refetches the film from the state the write left and returns its
    [comments] entry ([None] when the film has none), with status 200. *)
Theorem post_comment_stores_then_refetches {DB} (S : Services DB)
    (req : request) (w : world DB) (claims post_data : dict)
    (movie_id comment : string) (d1 d2 : DB) (m : dict) :
  jwt_claims req = Some claims ->
  json req = PyDict post_data ->
  post_data !! "movie_id" = Some (PyStr movie_id) ->
  post_data !! "comment" = Some (PyStr comment) ->
  db_add_comment S (PyStr movie_id) (user_from_claims S claims)
    (PyStr comment) (PyDatetime (clock w)) (db w) = (d1, Return tt) ->
  db_get_movie S (PyStr movie_id) d1 = (d2, Return (Some m)) ->
  api_post_comment S req w =
    (MkWorld d2 (clock w)
       (trace w ++ [AddComment (PyStr movie_id) (user_from_claims S claims)
                      (PyStr comment) (PyDatetime (clock w));
                    GetMovie (PyStr movie_id)]),
     Return {| body := dict_of [("status", PyStr "success");
                                ("comments", default PyNone (m !! "comments"))];
               status := 200 |}).
Proof.
  intros Hjwt Hjson Hmovie Hcomment Hadd Hget.
  rewrite (api_post_comment_run S req w claims post_data movie_id comment)
    by assumption.
  cbv zeta. rewrite Hadd, Hget. reflexivity.
Qed.

Lemma post_comment_stores_then_refetches_witness :
  let S := Scripted.services Scripted.fine in
  let req := Scripted.signed
               (dict_of [("movie_id", PyStr "573a1390f29313caabcd4135");
                         ("comment", PyStr "Smile!")]) in
  exists w' r, api_post_comment S req Scripted.start = (w', Return r)
               /\ db w' = 2%nat
               /\ body r !! "comments" =
                    Some (PyList [PyStr "You're gonna need a bigger boat"]).
Proof.
  cbv zeta. eexists. eexists. split.
  - apply (post_comment_stores_then_refetches
             (Scripted.services Scripted.fine) _ Scripted.start
             Scripted.quint
             (dict_of [("movie_id", PyStr "573a1390f29313caabcd4135");
                       ("comment", PyStr "Smile!")])
             "573a1390f29313caabcd4135" "Smile!" 1%nat 2%nat Scripted.orca);
      reflexivity.
  - split; [reflexivity|]. vm_compute. reflexivity.
Defined.

(** X13: the refetch is inside the guarded block.  When the comment has
    been stored but the refetch finds no film ([None]), the view answers
    [{status: fail, error: ...}] (the error of calling [get] on [None])
    with status 200, although the write has been made. *)
Theorem post_comment_stored_but_reported_failed {DB} (S : Services DB)
    (req : request) (w : world DB) (claims post_data : dict)
    (movie_id comment : string) (d1 d2 : DB) :
  jwt_claims req = Some claims ->
  json req = PyDict post_data ->
  post_data !! "movie_id" = Some (PyStr movie_id) ->
  post_data !! "comment" = Some (PyStr comment) ->
  db_add_comment S (PyStr movie_id) (user_from_claims S claims)
    (PyStr comment) (PyDatetime (clock w)) (db w) = (d1, Return tt) ->
  db_get_movie S (PyStr movie_id) d1 = (d2, Return None) ->
  exists w' r,
    api_post_comment S req w = (w', Return r)
    /\ db w' = d2
    /\ AddComment (PyStr movie_id) (user_from_claims S claims)
         (PyStr comment) (PyDatetime (clock w)) ∈ trace w'
    /\ status r = 200
    /\ body r = dict_of [
         ("status", PyStr "fail");
         ("error", PyStr "'NoneType' object has no attribute 'get'")].
Proof.
  intros Hjwt Hjson Hmovie Hcomment Hadd Hget.
  rewrite (api_post_comment_run S req w claims post_data movie_id comment)
    by assumption.
  cbv zeta. rewrite Hadd, Hget. eexists. eexists.
  split; [reflexivity|]. split; [reflexivity|].
  split; [|split; reflexivity].
  cbn [trace]. apply elem_of_app. right. apply elem_of_cons. left. reflexivity.
Qed.

Lemma post_comment_stored_but_reported_failed_witness :
  let S := Scripted.services Scripted.vanished in
  let req := Scripted.signed
               (dict_of [("movie_id", PyStr "000000000000000000000000");
                         ("comment", PyStr "Smile!")]) in
  exists w' r, api_post_comment S req Scripted.start = (w', Return r)
               /\ db w' = 2%nat
               /\ body r !! "status" = Some (PyStr "fail").
Proof.
  cbv zeta.
  destruct (post_comment_stored_but_reported_failed
              (Scripted.services Scripted.vanished)
              (Scripted.signed
                 (dict_of [("movie_id", PyStr "000000000000000000000000");
                           ("comment", PyStr "Smile!")]))
              Scripted.start Scripted.quint
              (dict_of [("movie_id", PyStr "000000000000000000000000");
                        ("comment", PyStr "Smile!")])
              "000000000000000000000000" "Smile!" 1%nat 2%nat
              eq_refl eq_refl eq_refl eq_refl eq_refl eq_refl)
    as (w' & r & Hrun & Hdb & _ & _ & Hbody).
  exists w', r. split; [exact Hrun|]. split; [exact Hdb|].
  rewrite Hbody. dict_lookup.
Defined.

(** X14: updating and deleting a comment with a well-formed body (for an
    update, strings under [comment_id], [updated_comment] and [movie_id];
    for a deletion, strings under [comment_id] and [movie_id]): the
    write is keyed by the comment id and the caller's email (not the user
    object, and not the film), the update is stamped with the server's
    clock, and the film named by [movie_id] is refetched afterwards from
    the state the write left; both answer with status 200. *)
Theorem update_and_delete_are_keyed_by_email {DB} (S : Services DB)
    (req : request) (w : world DB) (claims post_data : dict) :
  jwt_claims req = Some claims ->
  json req = PyDict post_data ->
  let user_email := email (user_from_claims S claims) in
  let now := PyDatetime (clock w) in
  (forall comment_id updated_comment movie_id d1,
     post_data !! "comment_id" = Some (PyStr comment_id) ->
     post_data !! "updated_comment" = Some (PyStr updated_comment) ->
     post_data !! "movie_id" = Some (PyStr movie_id) ->
     db_update_comment S (PyStr comment_id) user_email
       (PyStr updated_comment) now (db w) = (d1, Return tt) ->
     api_update_comment S req w =
       (MkWorld (db_get_movie S (PyStr movie_id) d1).1 (clock w)
          (trace w ++ [UpdateComment (PyStr comment_id) user_email
                         (PyStr updated_comment) now;
                       GetMovie (PyStr movie_id)]),
        Return (refetched (db_get_movie S (PyStr movie_id) d1).2)))
  /\ (forall comment_id movie_id d1,
        post_data !! "comment_id" = Some (PyStr comment_id) ->
        post_data !! "movie_id" = Some (PyStr movie_id) ->
        db_delete_comment S (PyStr comment_id) user_email (db w)
          = (d1, Return tt) ->
        api_delete_comment S req w =
          (MkWorld (db_get_movie S (PyStr movie_id) d1).1 (clock w)
             (trace w ++ [DeleteComment (PyStr comment_id) user_email;
                          GetMovie (PyStr movie_id)]),
           Return (refetched (db_get_movie S (PyStr movie_id) d1).2)))
  /\ forall movie, status (refetched movie) = 200.
Proof.
  intros Hjwt Hjson user_email now.
  split; [|split].
  - intros comment_id updated_comment movie_id d1 Hid Htext Hmovie Hupdate.
    rewrite (api_update_comment_run S req w claims post_data comment_id
               updated_comment movie_id) by assumption.
    cbv zeta. fold user_email now. rewrite Hupdate.
    destruct (db_get_movie S (PyStr movie_id) d1) as [d2 movie]. reflexivity.
  - intros comment_id movie_id d1 Hid Hmovie Hdelete.
    rewrite (api_delete_comment_run S req w claims post_data comment_id
               movie_id) by assumption.
    cbv zeta. fold user_email. rewrite Hdelete.
    destruct (db_get_movie S (PyStr movie_id) d1) as [d2 movie]. reflexivity.
  - intros [[m|]|e]; reflexivity.
Qed.

Lemma update_and_delete_are_keyed_by_email_witness :
  let S := Scripted.services Scripted.fine in
  let put := Scripted.signed
               (dict_of [("comment_id", PyStr "5a9427648b0beebeb69579cc");
                         ("updated_comment", PyStr "Farewell and adieu");
                         ("movie_id", PyStr "573a1390f29313caabcd4135")]) in
  let del := Scripted.signed
               (dict_of [("comment_id", PyStr "5a9427648b0beebeb69579cc");
                         ("movie_id", PyStr "573a1390f29313caabcd4135")]) in
  trace (api_update_comment S put Scripted.start).1 =
    [UpdateComment (PyStr "5a9427648b0beebeb69579cc") "quint@amity.example"
       (PyStr "Farewell and adieu") (PyDatetime 1572566400);
     GetMovie (PyStr "573a1390f29313caabcd4135")]
  /\ trace (api_delete_comment S del Scripted.start).1 =
       [DeleteComment (PyStr "5a9427648b0beebeb69579cc") "quint@amity.example";
        GetMovie (PyStr "573a1390f29313caabcd4135")].
Proof.
  cbv zeta. split.
  - destruct (update_and_delete_are_keyed_by_email
                (Scripted.services Scripted.fine)
                (Scripted.signed
                   (dict_of [("comment_id", PyStr "5a9427648b0beebeb69579cc");
                             ("updated_comment", PyStr "Farewell and adieu");
                             ("movie_id", PyStr "573a1390f29313caabcd4135")]))
                Scripted.start Scripted.quint _ eq_refl eq_refl)
      as (Hupdate & _ & _).
    rewrite (Hupdate "5a9427648b0beebeb69579cc" "Farewell and adieu"
               "573a1390f29313caabcd4135" 1%nat
               eq_refl eq_refl eq_refl eq_refl).
    reflexivity.
  - destruct (update_and_delete_are_keyed_by_email
                (Scripted.services Scripted.fine)
                (Scripted.signed
                   (dict_of [("comment_id", PyStr "5a9427648b0beebeb69579cc");
                             ("movie_id", PyStr "573a1390f29313caabcd4135")]))
                Scripted.start Scripted.quint _ eq_refl eq_refl)
      as (_ & Hdelete & _).
    rewrite (Hdelete "5a9427648b0beebeb69579cc" "573a1390f29313caabcd4135"
               1%nat eq_refl eq_refl eq_refl).
    reflexivity.
Defined.

(** X15: the comment views check their fields in a fixed order, before any
    call to the data layer: [movie_id], [comment] for a creation;
    [comment_id], [updated_comment], [movie_id] for an update;
    [comment_id], [movie_id] for a deletion.  The first field that is
    missing or not a string is the one reported, with status 200, and
    nothing is asked of the data layer; so a deletion or an update without
    [movie_id] is not carried out. *)
Theorem comment_views_report_first_invalid_field {DB} (S : Services DB)
    (req : request) (w : world DB) (claims post_data : dict) :
  jwt_claims req = Some claims ->
  json req = PyDict post_data ->
  let report field :=
    (w, Return {| body := dict_of [
                    ("status", PyStr "fail");
                    ("error", PyStr (expect_message S field))];
                  status := 200 |}) in
  (forall field,
     first_invalid ["movie_id"; "comment"] post_data = Some field ->
     api_post_comment S req w = report field)
  /\ (forall field,
        first_invalid ["comment_id"; "updated_comment"; "movie_id"] post_data
          = Some field ->
        api_update_comment S req w = report field)
  /\ (forall field,
        first_invalid ["comment_id"; "movie_id"] post_data = Some field ->
        api_delete_comment S req w = report field).
Proof.
  intros Hjwt Hjson report. subst report.
  unfold api_post_comment, api_update_comment, api_delete_comment,
    jwt_required, first_invalid.
  rewrite Hjwt, Hjson.
  unfold try_except, bind, py_get, expect, ret, raise. cbn [List.find].
  repeat split; intros field;
    destruct (is_str (dict_get post_data "comment_id"));
    destruct (is_str (dict_get post_data "movie_id"));
    destruct (is_str (dict_get post_data "comment"));
    destruct (is_str (dict_get post_data "updated_comment"));
    cbn [negb]; intros Hfield; inversion Hfield; reflexivity.
Qed.

Lemma comment_views_report_first_invalid_field_witness :
  let S := Scripted.services Scripted.fine in
  let req := Scripted.signed
               (dict_of [("comment_id", PyStr "5a9427648b0beebeb69579cc");
                         ("movie_id", PyInt 42)]) in
  exists r, api_delete_comment S req Scripted.start
            = (Scripted.start, Return r)
            /\ body r !! "error" =
                 Some (PyStr "Invalid input for field movie_id").
Proof.
  cbv zeta.
  destruct (comment_views_report_first_invalid_field
              (Scripted.services Scripted.fine)
              (Scripted.signed
                 (dict_of [("comment_id", PyStr "5a9427648b0beebeb69579cc");
                           ("movie_id", PyInt 42)]))
              Scripted.start Scripted.quint
              (dict_of [("comment_id", PyStr "5a9427648b0beebeb69579cc");
                        ("movie_id", PyInt 42)])
              eq_refl eq_refl) as (_ & _ & Hdelete).
  eexists. split; [apply (Hdelete "movie_id"); reflexivity|].
  dict_lookup.
Defined.

(** X16: in each comment view, on a body with the strings that view
    asks for, a write that raises is reported as
    [{status: fail, error: str(e)}] with status 200, and the film is not
    refetched: the failed write is the view's only call to the data
    layer. *)
Theorem failed_write_is_not_followed_by_refetch {DB} (S : Services DB)
    (req : request) (w : world DB) (claims post_data : dict) :
  jwt_claims req = Some claims ->
  json req = PyDict post_data ->
  let user := user_from_claims S claims in
  let now := PyDatetime (clock w) in
  let after d c e :=
    (MkWorld d (clock w) (trace w ++ [c]),
     Return {| body := dict_of [("status", PyStr "fail");
                                ("error", PyStr (exn_str e))];
               status := 200 |}) in
  (forall movie_id comment d e,
     post_data !! "movie_id" = Some (PyStr movie_id) ->
     post_data !! "comment" = Some (PyStr comment) ->
     db_add_comment S (PyStr movie_id) user (PyStr comment) now (db w)
       = (d, Raise e) ->
     api_post_comment S req w =
       after d (AddComment (PyStr movie_id) user (PyStr comment) now) e)
  /\ (forall comment_id updated_comment movie_id d e,
        post_data !! "comment_id" = Some (PyStr comment_id) ->
        post_data !! "updated_comment" = Some (PyStr updated_comment) ->
        post_data !! "movie_id" = Some (PyStr movie_id) ->
        db_update_comment S (PyStr comment_id) (email user)
          (PyStr updated_comment) now (db w) = (d, Raise e) ->
        api_update_comment S req w =
          after d (UpdateComment (PyStr comment_id) (email user)
                     (PyStr updated_comment) now) e)
  /\ (forall comment_id movie_id d e,
        post_data !! "comment_id" = Some (PyStr comment_id) ->
        post_data !! "movie_id" = Some (PyStr movie_id) ->
        db_delete_comment S (PyStr comment_id) (email user) (db w)
          = (d, Raise e) ->
        api_delete_comment S req w =
          after d (DeleteComment (PyStr comment_id) (email user)) e).
Proof.
  intros Hjwt Hjson user now after. subst after. split; [|split].
  - intros movie_id comment d e Hmovie Hcomment Hraise.
    rewrite (api_post_comment_run S req w claims post_data movie_id comment)
      by assumption.
    cbv zeta. fold user now. rewrite Hraise. reflexivity.
  - intros comment_id updated_comment movie_id d e Hid Htext Hmovie Hraise.
    rewrite (api_update_comment_run S req w claims post_data comment_id
               updated_comment movie_id) by assumption.
    cbv zeta. fold user now. rewrite Hraise. reflexivity.
  - intros comment_id movie_id d e Hid Hmovie Hraise.
    rewrite (api_delete_comment_run S req w claims post_data comment_id
               movie_id) by assumption.
    cbv zeta. fold user. rewrite Hraise. reflexivity.
Qed.

Lemma failed_write_is_not_followed_by_refetch_witness :
  let S := Scripted.services Scripted.broken in
  let post := Scripted.signed
                (dict_of [("movie_id", PyStr "573a1390f29313caabcd4135");
                          ("comment", PyStr "Smile!")]) in
  let del := Scripted.signed
               (dict_of [("comment_id", PyStr "5a9427648b0beebeb69579cc");
                         ("movie_id", PyStr "573a1390f29313caabcd4135")]) in
  (trace (api_post_comment S post Scripted.start).1 =
     [AddComment (PyStr "573a1390f29313caabcd4135")
        (MkUser "" "quint@amity.example") (PyStr "Smile!")
        (PyDatetime 1572566400)]
   /\ (api_post_comment S post Scripted.start).2 =
        Return (fail_response Scripted.timeout))
  /\ (trace (api_delete_comment S del Scripted.start).1 =
        [DeleteComment (PyStr "5a9427648b0beebeb69579cc")
           "quint@amity.example"]
      /\ (api_delete_comment S del Scripted.start).2 =
           Return (fail_response Scripted.timeout)).
Proof.
  cbv zeta. split.
  - destruct (failed_write_is_not_followed_by_refetch
                (Scripted.services Scripted.broken)
                (Scripted.signed
                   (dict_of [("movie_id", PyStr "573a1390f29313caabcd4135");
                             ("comment", PyStr "Smile!")]))
                Scripted.start Scripted.quint _ eq_refl eq_refl)
      as (Hpost & _ & _).
    rewrite (Hpost "573a1390f29313caabcd4135" "Smile!" 1%nat Scripted.timeout
               eq_refl eq_refl eq_refl).
    split; reflexivity.
  - destruct (failed_write_is_not_followed_by_refetch
                (Scripted.services Scripted.broken)
                (Scripted.signed
                   (dict_of [("comment_id", PyStr "5a9427648b0beebeb69579cc");
                             ("movie_id", PyStr "573a1390f29313caabcd4135")]))
                Scripted.start Scripted.quint _ eq_refl eq_refl)
      as (_ & _ & Hdelete).
    rewrite (Hdelete "5a9427648b0beebeb69579cc" "573a1390f29313caabcd4135"
               1%nat Scripted.timeout eq_refl eq_refl eq_refl).
    split; reflexivity.
Defined.

Section Answers.
Context {DB : Type}.

(** What holds of every response a block returns holds after a [bind]
    whose continuation keeps it, and of the outcome of the guarded block
    when it also holds of the failure envelopes. *)
Lemma ret_answers (P : response -> Prop) (a : response) :
  P a -> forall (w w' : world DB) r, ret a w = (w', Return r) -> P r.
Proof. intros Ha w w' r Hret. inversion Hret. subst. exact Ha. Qed.

Lemma bind_answers {A} (P : response -> Prop) (m : M DB A)
    (k : A -> M DB response) :
  (forall a w w' r, k a w = (w', Return r) -> P r) ->
  forall w w' r, bind m k w = (w', Return r) -> P r.
Proof.
  intros Hk w w' r. unfold bind. destruct (m w) as [w1 [a|e]].
  - apply Hk.
  - discriminate.
Qed.

Lemma guarded_answers (P : response -> Prop) (body : M DB response) :
  (forall w w' r, body w = (w', Return r) -> P r) ->
  (forall e, P (fail_response e)) ->
  forall w, exists r,
    (try_except body [Exception] (fun e => ret (fail_response e)) w).2
      = Return r /\ P r.
Proof.
  intros Hbody Hfail w. unfold try_except.
  destruct (body w) as [w' [r|e]] eqn:Hrun; simpl.
  - exists r. split; [reflexivity|]. exact (Hbody w w' r Hrun).
  - exists (fail_response e). split; [reflexivity|apply Hfail].
Qed.

End Answers.

(** X17: for an authenticated request whose body [request.get_json()]
    has read (whatever value it gave: a JSON object or not, with the
    fields or not) and whatever the data layer does, the three comment
    views never raise from there on: they answer with status 200 and a
    body whose [status] is [success] or [fail].  (A body that
    [get_json] itself refuses is outside this statement: that call comes
    before the guarded block.) *)
Theorem comment_views_always_respond_200 {DB} (S : Services DB)
    (req : request) (w : world DB) :
  is_Some (jwt_claims req) ->
  let answered (out : world DB * result response) :=
    exists r, out.2 = Return r
              /\ status r = 200
              /\ (body r !! "status" = Some (PyStr "success")
                  \/ body r !! "status" = Some (PyStr "fail")) in
  answered (api_post_comment S req w)
  /\ answered (api_update_comment S req w)
  /\ answered (api_delete_comment S req w).
Proof.
  intros [claims Hjwt] answered. subst answered.
  unfold api_post_comment, api_update_comment, api_delete_comment,
    jwt_required.
  rewrite Hjwt.
  repeat split;
    (apply (guarded_answers
              (fun r => status r = 200
                        /\ (body r !! "status" = Some (PyStr "success")
                            \/ body r !! "status" = Some (PyStr "fail"))));
     [|intros e; split; [reflexivity|right; dict_lookup]]);
    repeat (apply bind_answers; intros ?);
    apply ret_answers; (split; [reflexivity|left; dict_lookup]).
Qed.

Lemma comment_views_always_respond_200_witness :
  let S := Scripted.services Scripted.broken in
  let req := MkRequest [] (PyList []) (Some Scripted.quint) in
  exists r, (api_post_comment S req Scripted.start).2 = Return r
            /\ status r = 200.
Proof.
  cbv zeta.
  destruct (comment_views_always_respond_200
              (Scripted.services Scripted.broken)
              (MkRequest [] (PyList []) (Some Scripted.quint))
              Scripted.start (ex_intro _ Scripted.quint eq_refl))
    as ((r & Hr & Hstatus & _) & _).
  exists r. split; [exact Hr|exact Hstatus].
Defined.

(** X18: an authenticated request whose body is not a JSON object (no
    JSON at all, a list, a string, ...) is answered by the three comment
    views with [{status: fail, error: ...}] and status 200, the error
    being that of calling [get] on that value; nothing is asked of the
    data layer. *)
Theorem comment_views_reject_non_object_body {DB} (S : Services DB)
    (req : request) (w : world DB) :
  is_Some (jwt_claims req) ->
  (forall post_data, json req <> PyDict post_data) ->
  let report :=
    (w, Return {| body := dict_of [
                    ("status", PyStr "fail");
                    ("error",
                     PyStr ("'" ++ type_name (json req)
                            ++ "' object has no attribute 'get'"))];
                  status := 200 |}) in
  api_post_comment S req w = report
  /\ api_update_comment S req w = report
  /\ api_delete_comment S req w = report.
Proof.
  intros [claims Hjwt] Hjson report. subst report.
  unfold api_post_comment, api_update_comment, api_delete_comment,
    jwt_required.
  rewrite Hjwt. unfold try_except, bind, py_get.
  destruct (json req) as [| | | | |post_data| |];
    try (exfalso; exact (Hjson post_data eq_refl));
    repeat split; reflexivity.
Qed.

Lemma comment_views_reject_non_object_body_witness :
  let S := Scripted.services Scripted.fine in
  let req := MkRequest [] PyNone (Some Scripted.quint) in
  exists r, api_post_comment S req Scripted.start = (Scripted.start, Return r)
            /\ body r !! "error" =
                 Some (PyStr "'NoneType' object has no attribute 'get'").
Proof.
  cbv zeta.
  destruct (comment_views_reject_non_object_body
              (Scripted.services Scripted.fine)
              (MkRequest [] PyNone (Some Scripted.quint)) Scripted.start
              (ex_intro _ Scripted.quint eq_refl)) as (Hpost & _ & _).
  { intros post_data. discriminate. }
  eexists. split; [exact Hpost|]. dict_lookup.
Defined.

(** ** Reads and writes *)

(** X19: the six views behind GET make exactly one call to the data layer
    each, and it is never one of the three writes (adding, updating or
    deleting a comment), whatever the request and whether or not the call
    raises. *)
Theorem get_views_make_one_read {DB} (S : Services DB) (req : request)
    (id : string) (w : world DB) :
  one_read w (api_get_movies S w)
  /\ one_read w (api_search_movies S req w)
  /\ one_read w (api_get_movie_by_id S id w)
  /\ one_read w (api_get_movies_by_country S req w)
  /\ one_read w (api_search_movies_faceted S req w)
  /\ one_read w (get_conn_pool_size S w).
Proof.
  assert (Hsearch : one_read w (api_search_movies S req w)).
  { rewrite api_search_movies_run. cbv zeta.
    destruct (db_get_movies S _ _ _ _) as [d r].
    eexists. split; reflexivity. }
  split; [|split; [exact Hsearch|split; [|split; [|split]]]].
  - unfold api_get_movies, bind, get_movies, invoke.
    destruct (db_get_movies S None 0 20 (db w)) as [d [[movies total]|e]];
      eexists; split; reflexivity.
  - unfold api_get_movie_by_id, bind, get_movie, invoke.
    destruct (db_get_movie S (PyStr id) (db w)) as [d [[m|]|e]];
      [destruct (decide (m = ∅))| |]; eexists; split; reflexivity.
  - unfold api_get_movies_by_country, try_except, bind,
      get_movies_by_country, invoke.
    destruct (db_get_movies_by_country S _ (db w)) as [d [titles|e]];
      eexists; split; reflexivity.
  - destruct (args_getlist "cast" (args req)) as [|a cast] eqn:Hcast.
    + rewrite (faceted_without_cast_run S req w Hcast). exact Hsearch.
    + assert (Hne : args_getlist "cast" (args req) <> [])
        by (rewrite Hcast; discriminate).
      rewrite (faceted_with_cast_run S req w Hne). cbv zeta.
      destruct (db_get_movies_faceted S _ _ _ _) as [d r].
      eexists. split; reflexivity.
  - unfold get_conn_pool_size, try_except, bind, get_configuration, invoke.
    destruct (db_get_configuration S (db w)) as [d [[[pool wc] ui]|e]];
      eexists; split; reflexivity.
Qed.
